(** * math-predictor-service: the prediction, staking and backtest core

    A shallow embedding of [app/core/kelly.py], [app/core/hybrid_engine.py],
    [app/core/fuzzy_engine.py], [app/core/stat_engine.py],
    [app/core/backtester.py] and the [/predict], [/backtest] and
    [/upload-data] handlers of [app/main.py].

    Python's [float] is IEEE 754 binary64, and so is Rocq's primitive
    [float]: [+], [-], [*], [/] and the comparisons below are the very
    operations the interpreter performs, bit for bit.  What Python adds on
    top of IEEE arithmetic is modelled explicitly:
    - [/] raises [ZeroDivisionError] on a zero divisor ([py_div]);
    - the builtins [min], [max], [round] and [sum];
    - comparing a tuple with a number raises [TypeError] ([py_le]);
    - exceptions, as the [Raise] case of [result].

    [math.exp] and [float ** int] come from the platform's C library and
    are parameters of the statistical engine. *)

From Stdlib Require Import ZArith List Bool Lia Floats.
Import ListNotations.
Set Warnings "-inexact-float".
Open Scope float_scope.

(** ** Exceptions and results *)

Inductive exn :=
| ValueError
| KeyError
| TypeError
| ZeroDivisionError.

Inductive result (A : Type) :=
| Ok (a : A)
| Raise (e : exn).
Arguments Ok {A} a.
Arguments Raise {A} e.

Definition bind {A B : Type} (c : result A) (k : A -> result B) : result B :=
  match c with
  | Ok a => k a
  | Raise e => Raise e
  end.

Notation "x <- c ;; k" := (bind c (fun x => k))
  (at level 61, c at next level, right associativity).
Notation "' p <- c ;; k" := (bind c (fun x => let 'p := x in k))
  (at level 61, p pattern, c at next level, right associativity).

(** ** Python's float operations *)

Definition triple : Type := float * float * float.

(** [x / y]: IEEE division, except that a zero divisor (of either sign)
    raises.  Divisions that the source guards ([if total > 0: p /= total])
    or whose divisor is a nonzero literal are written with the raw [/];
    [guarded_div] below justifies it. *)
Definition py_div (x y : float) : result float :=
  if y =? 0 then Raise ZeroDivisionError else Ok (x / y).

(** [max(a, b)] keeps [a] unless [b > a]; [min(a, b)] keeps [a] unless
    [b < a] (so a NaN in second position is never selected). *)
Definition py_max (a b : float) : float := if a <? b then b else a.
Definition py_min (a b : float) : float := if b <? a then b else a.
Definition py_max3 (a b c : float) : float := py_max (py_max a b) c.

(** [sum(xs)]: left to right from 0.  (CPython 3.12 and later compensate
    the rounding errors of a float sum, which can change the last bit; no
    statement below depends on that bit.) *)
Definition py_sum (xs : list float) : float := fold_left add xs 0.

(** [max(0.0, min(1.0, p))], the clamp every engine ends with. *)
Definition clamp01 (p : float) : float := py_max 0 (py_min 1 p).

(** *** [round(x, ndigits)]

    CPython rounds the exact binary value of [x] to [ndigits] decimals,
    ties to even, and returns the double nearest to that decimal; infinities
    and NaN are returned unchanged. *)

Definition round_half_even_div (n d : Z) : Z :=
  let q := (n / d)%Z in
  let r := (n mod d)%Z in
  match (2 * r ?= d)%Z with
  | Lt => q
  | Gt => (q + 1)%Z
  | Eq => if Z.even q then q else (q + 1)%Z
  end.

Definition SF_of_Z (s : bool) (n : Z) : spec_float :=
  match n with
  | Zpos p => S754_finite s p 0
  | _ => S754_zero s
  end.

Definition py_round (x : float) (ndigits : nat) : float :=
  match Prim2SF x with
  | S754_finite s m e =>
      if (0 <=? e)%Z then x
      else
        let p10 := (10 ^ Z.of_nat ndigits)%Z in
        let n := round_half_even_div (Zpos m * p10) (2 ^ (- e)) in
        SF2Prim (SFdiv prec emax (SF_of_Z s n) (SF_of_Z false p10))
  | _ => x
  end.

(** *** Rich comparison on the values the backtester compares *)

Inductive pyval :=
| VFloat (x : float)
| VTuple (t : triple).

(** [a <= b]: numbers compare numerically; tuples compare
    lexicographically (the first position where the items are not [==]
    decides); a tuple against a number is not supported. *)
Definition py_le (a b : pyval) : result bool :=
  match a, b with
  | VFloat x, VFloat y => Ok (x <=? y)
  | VTuple (x0, x1, x2), VTuple (y0, y1, y2) =>
      Ok (if negb (x0 =? y0) then x0 <=? y0
          else if negb (x1 =? y1) then x1 <=? y1
          else if negb (x2 =? y2) then x2 <=? y2
          else true)
  | _, _ => Raise TypeError
  end.

(** ** [app/core/kelly.py] *)

Module kelly.

(** The statements of [calculate_stake] up to its first unconditional
    [return]. *)
Definition calculate_stake (probability odds bankroll kelly_fraction : float)
  : result (float * float) :=
  if (probability <=? 0) || (1 <=? probability) then Ok (0, 0)
  else if odds <=? 1 then Ok (0, 0)
  else
    let b := odds - 1 in
    let q := 1 - probability in
    full_kelly <- py_div (probability * b - q) b ;;
    let kelly := py_max 0 (full_kelly * kelly_fraction) in
    let kelly_capped := py_min kelly 0.05 in
    let stake := bankroll * kelly_capped in
    Ok (py_round kelly_capped 4, py_round stake 2).

(** The statements that follow that [return] in the source.  No call
    reaches them; they are kept to state what the 25% cap would compute. *)
Definition calculate_stake_after_return
  (probability odds bankroll kelly_fraction : float) : result (float * float) :=
  let b := odds - 1 in
  let p := probability in
  let q := 1 - p in
  f_kelly <- py_div (b * p - q) b ;;
  let f_adjusted := f_kelly * kelly_fraction in
  if f_adjusted <=? 0 then Ok (0, 0)
  else
    let f_adjusted := py_min f_adjusted 0.25 in
    let stake := bankroll * f_adjusted in
    Ok (f_adjusted, stake).

(** [calculate_stake] called with whatever the caller passes as
    [probability]: on a tuple the first test, [probability <= 0], raises. *)
Definition calculate_stake_dyn (probability : pyval)
  (odds bankroll kelly_fraction : float) : result (float * float) :=
  match probability with
  | VFloat p => calculate_stake p odds bankroll kelly_fraction
  | VTuple _ => Raise TypeError
  end.

End kelly.

(** ** [app/core/hybrid_engine.py] *)

Module hybrid_engine.

Definition combine_probabilities (p_stat p_fuzzy : triple)
  (stat_confidence fuzzy_confidence : float) : result triple :=
  let '(s0, s1, s2) := p_stat in
  let '(f0, f1, f2) := p_fuzzy in
  let total_conf := stat_confidence + fuzzy_confidence in
  let '(stat_confidence, fuzzy_confidence, total_conf) :=
    if total_conf =? 0 then (0.5, 0.5, 1) else (stat_confidence, fuzzy_confidence, total_conf) in
  w_stat <- py_div stat_confidence total_conf ;;
  w_fuzzy <- py_div fuzzy_confidence total_conf ;;
  let p_home := w_stat * s0 + w_fuzzy * f0 in
  let p_draw := w_stat * s1 + w_fuzzy * f1 in
  let p_away := w_stat * s2 + w_fuzzy * f2 in
  let total := p_home + p_draw + p_away in
  let '(p_home, p_draw, p_away) :=
    if 0 <? total then (p_home / total, p_draw / total, p_away / total)
    else (1 / 3, 1 / 3, 1 / 3) in
  Ok (clamp01 p_home, clamp01 p_draw, clamp01 p_away).

(** The defaults [stat_confidence=0.5, fuzzy_confidence=0.5]. *)
Definition combine_probabilities_default (p_stat p_fuzzy : triple) : result triple :=
  combine_probabilities p_stat p_fuzzy 0.5 0.5.

End hybrid_engine.

(** ** [app/core/fuzzy_engine.py] *)

Module fuzzy_engine.

(** The inner dictionaries of [fuzzify], keyed ["low"], ["med"], ["high"]. *)
Record memberships := { low : float; med : float; high : float }.

Record fuzzy_sets := {
  home_goals : memberships;
  away_goals : memberships;
  prob : memberships;
  implied_prob : float
}.

(** [rule_fire] and [consequents], keyed ["very_high"], ["high"],
    ["medium"], ["low"], ["very_low"], in that insertion order. *)
Record by_rule := {
  very_high : float;
  rule_high : float;
  medium : float;
  rule_low : float;
  very_low : float
}.

Definition values (d : by_rule) : list float :=
  [very_high d; rule_high d; medium d; rule_low d; very_low d].

Definition triangular_membership (x a b c : float) : result float :=
  if (x <=? a) || (c <=? x) then Ok 0
  else if (a <? x) && (x <=? b) then
    (if a <? b then py_div (x - a) (b - a) else Ok 0)
  else
    (if b <? c then py_div (c - x) (c - b) else Ok 0).

Definition fuzzify (home_goals away_goals odds_home odds_draw odds_away : float)
  : result fuzzy_sets :=
  inv_home <- py_div 1 odds_home ;;
  inv_draw <- py_div 1 odds_draw ;;
  inv_away <- py_div 1 odds_away ;;
  let total_odds := inv_home + inv_draw + inv_away in
  inv_home' <- py_div 1 odds_home ;;
  implied_prob_home <- py_div inv_home' total_odds ;;
  home_low <- triangular_membership home_goals 0.0 0.5 1.5 ;;
  home_med <- triangular_membership home_goals 1.0 1.5 2.5 ;;
  home_high <- triangular_membership home_goals 2.0 3.0 5.0 ;;
  away_low <- triangular_membership away_goals 0.0 0.5 1.5 ;;
  away_med <- triangular_membership away_goals 1.0 1.5 2.5 ;;
  away_high <- triangular_membership away_goals 2.0 3.0 5.0 ;;
  prob_low <- triangular_membership implied_prob_home 0.0 0.25 0.45 ;;
  prob_med <- triangular_membership implied_prob_home 0.35 0.50 0.65 ;;
  prob_high <- triangular_membership implied_prob_home 0.55 0.75 1.0 ;;
  Ok {| home_goals := {| low := home_low; med := home_med; high := home_high |};
        away_goals := {| low := away_low; med := away_med; high := away_high |};
        prob := {| low := prob_low; med := prob_med; high := prob_high |};
        implied_prob := implied_prob_home |}.

Definition consequents : by_rule :=
  {| very_high := 0.85; rule_high := 0.70; medium := 0.50;
     rule_low := 0.30; very_low := 0.15 |}.

Definition apply_rules (fs : fuzzy_sets) : by_rule * by_rule :=
  let home_goals := home_goals fs in
  let away_goals := away_goals fs in
  let prob := prob fs in
  ({| very_high := py_min (high home_goals) (low away_goals);
      rule_high := py_max3 (py_min (high home_goals) (med away_goals))
                           (py_min (med home_goals) (low away_goals))
                           (py_min (high prob) (med home_goals));
      medium := py_max (med home_goals) (py_min (med prob) (med home_goals));
      rule_low := py_min (high away_goals) (1 - high home_goals);
      very_low := py_min (high away_goals) (low home_goals) |},
   consequents).

Definition defuzzify (rule_fire consequents : by_rule) : result float :=
  let numerator :=
    py_sum (map (fun '(f, c) => f * c) (combine (values rule_fire) (values consequents))) in
  let denominator := py_sum (values rule_fire) in
  if denominator =? 0 then Ok 0.5
  else py_div numerator denominator.

Definition calculate_probability
  (home_goals_avg away_goals_avg odds_home odds_draw odds_away : float)
  : result triple :=
  fuzzy_sets <- fuzzify home_goals_avg away_goals_avg odds_home odds_draw odds_away ;;
  let '(rule_fire, consequents) := apply_rules fuzzy_sets in
  p_home <- defuzzify rule_fire consequents ;;
  let goal_diff_away := away_goals_avg - home_goals_avg in
  let p_away_base := py_max 0 (py_min 1 (0.5 + goal_diff_away * 0.15)) in
  inv_home <- py_div 1 odds_home ;;
  inv_draw <- py_div 1 odds_draw ;;
  inv_away <- py_div 1 odds_away ;;
  let total_odds_inv := inv_home + inv_draw + inv_away in
  inv_home1 <- py_div 1 odds_home ;;
  implied_home <- py_div inv_home1 total_odds_inv ;;
  inv_draw1 <- py_div 1 odds_draw ;;
  implied_draw <- py_div inv_draw1 total_odds_inv ;;
  inv_away1 <- py_div 1 odds_away ;;
  implied_away <- py_div inv_away1 total_odds_inv ;;
  let p_home_final := 0.6 * p_home + 0.4 * implied_home in
  let p_away_final := 0.6 * p_away_base + 0.4 * implied_away in
  let p_draw_final := 0.6 * py_max 0 (1 - p_home - p_away_base) + 0.4 * implied_draw in
  let total := p_home_final + p_draw_final + p_away_final in
  let '(p_home_final, p_draw_final, p_away_final) :=
    if 0 <? total
    then (p_home_final / total, p_draw_final / total, p_away_final / total)
    else (1 / 3, 1 / 3, 1 / 3) in
  Ok (clamp01 p_home_final, clamp01 p_draw_final, clamp01 p_away_final).

End fuzzy_engine.

(** ** [app/core/stat_engine.py] *)

Module stat_engine.

(** An [int] used where a float is expected ([x / math.factorial(k)]). *)
Definition float_of_int (n : Z) : float := of_uint63 (Uint63.of_Z n).

Definition factorial (k : Z) : Z := Z.of_nat (fact (Z.to_nat k)).

(** [range(6)] *)
Definition range6 : list Z := [0; 1; 2; 3; 4; 5]%Z.

Section WithLibm.

(** [math.exp] and [float.__pow__] with an [int] exponent.  The engine
    only calls them with [lambda_] in [0.1, 5.75] and [k] in [range(6)],
    where neither overflows nor raises. *)
Variable math_exp : float -> float.
Variable float_pow : float -> Z -> float.

Definition _poisson_probability (k : Z) (lambda_ : float) : float :=
  if lambda_ <=? 0 then 0
  else (math_exp (- lambda_) * float_pow lambda_ k) / float_of_int (factorial k).

Definition _calculate_home_advantage : float := 1.15.

(** The two nested [for] loops: the accumulators
    [(p_home_poisson, p_draw_poisson, p_away_poisson)] after the last pass. *)
Definition poisson_outcomes (adj_home_goals away_goals_avg : float) : triple :=
  fold_left
    (fun acc home_goals =>
       let p_home := _poisson_probability home_goals adj_home_goals in
       fold_left
         (fun '(p_home_poisson, p_draw_poisson, p_away_poisson) away_goals =>
            let p_away := _poisson_probability away_goals away_goals_avg in
            if (away_goals <? home_goals)%Z
            then (p_home_poisson + p_home * p_away, p_draw_poisson, p_away_poisson)
            else if (home_goals =? away_goals)%Z
            then (p_home_poisson, p_draw_poisson + p_home * p_away, p_away_poisson)
            else (p_home_poisson, p_draw_poisson, p_away_poisson + p_home * p_away))
         range6 acc)
    range6 (0, 0, 0).

Definition calculate_probability
  (home_goals_avg away_goals_avg home_win_rate away_win_rate : float) : triple :=
  let home_goals_avg := py_max 0.1 (py_min home_goals_avg 5.0) in
  let away_goals_avg := py_max 0.1 (py_min away_goals_avg 5.0) in
  let home_win_rate := py_max 0.01 (py_min home_win_rate 0.99) in
  let away_win_rate := py_max 0.01 (py_min away_win_rate 0.99) in
  let home_advantage := _calculate_home_advantage in
  let adj_home_goals := home_goals_avg * home_advantage in
  let '(p_home_poisson, p_draw_poisson, p_away_poisson) :=
    poisson_outcomes adj_home_goals away_goals_avg in
  let draw_rate := py_max 0.1 (1.0 - home_win_rate - away_win_rate) in
  let p_home_hybrid := 0.6 * p_home_poisson + 0.4 * home_win_rate in
  let p_draw_hybrid := 0.6 * p_draw_poisson + 0.4 * draw_rate in
  let p_away_hybrid := 0.6 * p_away_poisson + 0.4 * away_win_rate in
  let total := p_home_hybrid + p_draw_hybrid + p_away_hybrid in
  let '(p_home_hybrid, p_draw_hybrid, p_away_hybrid) :=
    if 0 <? total
    then (p_home_hybrid / total, p_draw_hybrid / total, p_away_hybrid / total)
    else (1 / 3, 1 / 3, 1 / 3) in
  let p_home_final := 0.7 * p_home_hybrid + 0.3 * (1.0 / 3.0) in
  let p_draw_final := 0.7 * p_draw_hybrid + 0.3 * (1.0 / 3.0) in
  let p_away_final := 0.7 * p_away_hybrid + 0.3 * (1.0 / 3.0) in
  (clamp01 p_home_final, clamp01 p_draw_final, clamp01 p_away_final).

End WithLibm.

End stat_engine.

(** ** [app/core/backtester.py] *)

Module backtester.

(** One field of a [csv.DictReader] row, seen through the conversion the
    backtester applies to it ([float(row.get(k))], or [int(row.get(k))] for
    [outcome]): the key may be absent ([row.get] gives [None], and the
    conversion raises [TypeError]); its text may not be a literal (the
    conversion raises [ValueError]); or it converts to a value. *)
Inductive field (A : Type) :=
| Absent
| Malformed
| Parsed (a : A).
Arguments Absent {A}.
Arguments Malformed {A}.
Arguments Parsed {A} a.

Definition convert {A : Type} (f : field A) : result A :=
  match f with
  | Absent => Raise TypeError
  | Malformed => Raise ValueError
  | Parsed a => Ok a
  end.

Record row := {
  home_goals_avg : field float;
  away_goals_avg : field float;
  home_win_rate : field float;
  away_win_rate : field float;
  odds_home : field float;
  odds_draw : field float;
  odds_away : field float;
  outcome : field Z
}.

(** The local variables that survive from one row to the next. *)
Record state := {
  bankroll : float;
  equity_curve : list float;
  total_bets : Z;
  winning_bets : Z
}.

(** The dictionary [run_backtest] returns. *)
Record report := {
  roi : float;
  r_total_bets : Z;
  r_winning_bets : Z;
  r_losing_bets : Z;
  r_equity_curve : list float;
  final_bankroll : float
}.

(** The validation gate: [true] when the row goes on to the prediction. *)
Definition validate (odds_home odds_draw odds_away home_win_rate away_win_rate : float)
  : bool :=
  if (1.0 <=? odds_home) || (1.0 <=? odds_draw) || (1.0 <=? odds_away) then false
  else if negb ((0 <=? home_win_rate) && (home_win_rate <=? 1))
          || negb ((0 <=? away_win_rate) && (away_win_rate <=? 1)) then false
  else true.

Section WithLibm.

Variable math_exp : float -> float.
Variable float_pow : float -> Z -> float.

(** Everything after the bet is sized: settle and record. *)
Definition settle (st : state) (odds_home stake : float) (outcome : Z) : state :=
  let total_bets := (total_bets st + 1)%Z in
  let '(winning_bets, bankroll) :=
    if (outcome =? 1)%Z
    then ((winning_bets st + 1)%Z, bankroll st + stake * (odds_home - 1))
    else (winning_bets st, bankroll st - stake) in
  {| bankroll := bankroll;
     equity_curve := equity_curve st ++ [bankroll];
     total_bets := total_bets;
     winning_bets := winning_bets |}.

(** From the edge check to the end of the loop body.  [Ok st] with the
    state unchanged is a [continue]. *)
Definition edge_check_and_bet (st : state) (p_hybrid : triple)
  (odds_home : float) (outcome : Z) : result state :=
  implied_prob <- py_div 1.0 odds_home ;;
  let min_edge := 0.02 in
  no_edge <- py_le (VTuple p_hybrid) (VFloat (implied_prob + min_edge)) ;;
  if no_edge : bool then Ok st
  else
    '(kelly_frac, stake) <-
      kelly.calculate_stake_dyn (VTuple p_hybrid) odds_home (bankroll st) 0.25 ;;
    if stake <=? 0 then Ok st
    else Ok (settle st odds_home stake outcome).

(** The eight conversions that open the inner [try], in source order: the
    first field that does not convert decides the exception. *)
Record fixture := {
  f_home_goals_avg : float;
  f_away_goals_avg : float;
  f_home_win_rate : float;
  f_away_win_rate : float;
  f_odds_home : float;
  f_odds_draw : float;
  f_odds_away : float;
  f_outcome : Z
}.

Definition parse_row (r : row) : result fixture :=
  home_goals_avg <- convert (home_goals_avg r) ;;
  away_goals_avg <- convert (away_goals_avg r) ;;
  home_win_rate <- convert (home_win_rate r) ;;
  away_win_rate <- convert (away_win_rate r) ;;
  odds_home <- convert (odds_home r) ;;
  odds_draw <- convert (odds_draw r) ;;
  odds_away <- convert (odds_away r) ;;
  outcome <- convert (outcome r) ;;
  Ok {| f_home_goals_avg := home_goals_avg;
        f_away_goals_avg := away_goals_avg;
        f_home_win_rate := home_win_rate;
        f_away_win_rate := away_win_rate;
        f_odds_home := odds_home;
        f_odds_draw := odds_draw;
        f_odds_away := odds_away;
        f_outcome := outcome |}.

Definition passes_gate (x : fixture) : bool :=
  validate (f_odds_home x) (f_odds_draw x) (f_odds_away x)
    (f_home_win_rate x) (f_away_win_rate x).

(** The prediction of one fixture: both engines, then the combiner with
    its default confidences. *)
Definition predict_fixture (x : fixture) : result triple :=
  let p_stat :=
    stat_engine.calculate_probability math_exp float_pow
      (f_home_goals_avg x) (f_away_goals_avg x)
      (f_home_win_rate x) (f_away_win_rate x) in
  p_fuzzy <-
    fuzzy_engine.calculate_probability
      (f_home_goals_avg x) (f_away_goals_avg x)
      (f_odds_home x) (f_odds_draw x) (f_odds_away x) ;;
  hybrid_engine.combine_probabilities_default p_stat p_fuzzy.

(** The body of the inner [try]. *)
Definition row_body (st : state) (r : row) : result state :=
  x <- parse_row r ;;
  if negb (passes_gate x) then Ok st
  else
    p_hybrid <- predict_fixture x ;;
    edge_check_and_bet st p_hybrid (f_odds_home x) (f_outcome x).

(** One pass of the [for] loop: the inner [try] with its handler
    [except (ValueError, KeyError): continue].  Nothing that can raise
    follows the first assignment to a counter, so the state the handler
    continues with is the state the row started with. *)
Definition process_row (st : state) (r : row) : result state :=
  match row_body st r with
  | Raise ValueError | Raise KeyError => Ok st
  | other => other
  end.

Fixpoint process_rows (st : state) (rows : list row) : result state :=
  match rows with
  | [] => Ok st
  | r :: rows' => st' <- process_row st r ;; process_rows st' rows'
  end.

Definition initial_state (initial_bankroll : float) : state :=
  {| bankroll := initial_bankroll;
     equity_curve := [initial_bankroll];
     total_bets := 0;
     winning_bets := 0 |}.

Definition metrics (initial_bankroll : float) (st : state) : report :=
  let losing_bets := (total_bets st - winning_bets st)%Z in
  let roi :=
    if 0 <? initial_bankroll
    then ((bankroll st - initial_bankroll) / initial_bankroll) * 100
    else 0 in
  {| roi := py_round roi 2;
     r_total_bets := total_bets st;
     r_winning_bets := winning_bets st;
     r_losing_bets := losing_bets;
     r_equity_curve := map (fun v => py_round v 2) (equity_curve st);
     final_bankroll := py_round (bankroll st) 2 |}.

(** [run_backtest(data_path, initial_bankroll)].  The file at [data_path]
    is [None] when [open] raises [FileNotFoundError], which the outer
    handler turns into a return of [None]; otherwise it is the rows the
    reader yields, in order.  Every other exception leaves the function. *)
Definition run_backtest (data : option (list row)) (initial_bankroll : float)
  : result (option report) :=
  match data with
  | None => Ok None
  | Some rows =>
      st <- process_rows (initial_state initial_bankroll) rows ;;
      Ok (Some (metrics initial_bankroll st))
  end.

End WithLibm.

End backtester.

(** ** The [/predict] handler of [app/main.py] *)

Module main.

(** [PredictionRequest] *)
Record PredictionRequest := {
  home_goals_avg : float;
  away_goals_avg : float;
  home_win_rate : float;
  away_win_rate : float;
  odds_home : float;
  odds_draw : float;
  odds_away : float;
  bankroll : float;
  kelly_fraction : float
}.

(** The constraints [schemas.py] declares on the request's fields
    ([ge=0, le=1] on the win rates and the multiplier, [gt=1] on the odds,
    [gt=0] on the bankroll): what a "valid input" of the handler is. *)
Definition request_valid (r : PredictionRequest) : bool :=
  (0 <=? home_win_rate r) && (home_win_rate r <=? 1)
  && (0 <=? away_win_rate r) && (away_win_rate r <=? 1)
  && (1 <? odds_home r) && (1 <? odds_draw r) && (1 <? odds_away r)
  && (0 <? bankroll r)
  && (0 <=? kelly_fraction r) && (kelly_fraction r <=? 1).

Inductive outcome_name := home | draw | away.

(** [PredictionResponse] *)
Record PredictionResponse := {
  p_stat_home : float; p_stat_draw : float; p_stat_away : float;
  p_fuzzy_home : float; p_fuzzy_draw : float; p_fuzzy_away : float;
  p_hybrid_home : float; p_hybrid_draw : float; p_hybrid_away : float;
  r_kelly_fraction : float;
  recommended_stake : float;
  recommended_outcome : outcome_name
}.

Section WithLibm.

Variable math_exp : float -> float.
Variable float_pow : float -> Z -> float.

(** "Find best betting opportunity": the outcome with the highest edge over
    the implied probabilities, with its hybrid probability and its odds. *)
Definition best_bet (request : PredictionRequest) (p_hybrid : triple)
  : result (outcome_name * float * float) :=
  let '(h0, h1, h2) := p_hybrid in
  inv_home <- py_div 1 (odds_home request) ;;
  inv_draw <- py_div 1 (odds_draw request) ;;
  inv_away <- py_div 1 (odds_away request) ;;
  let total_odds_inv := inv_home + inv_draw + inv_away in
  implied_home <- py_div inv_home total_odds_inv ;;
  implied_draw <- py_div inv_draw total_odds_inv ;;
  implied_away <- py_div inv_away total_odds_inv ;;
  let edge_home := h0 - implied_home in
  let edge_draw := h1 - implied_draw in
  let edge_away := h2 - implied_away in
  (* max(edges, key=edges.get): the first key whose edge no later one exceeds *)
  let '(best_outcome, best_edge) :=
    if edge_home <? edge_draw then (draw, edge_draw) else (home, edge_home) in
  let best_outcome := if best_edge <? edge_away then away else best_outcome in
  let best_odds :=
    match best_outcome with
    | home => odds_home request
    | draw => odds_draw request
    | away => odds_away request
    end in
  let best_probability :=
    match best_outcome with
    | home => h0
    | draw => h1
    | away => h2
    end in
  Ok (best_outcome, best_probability, best_odds).

(** The prediction of the request's fixture. *)
Definition predictions (request : PredictionRequest) : result (triple * triple * triple) :=
  let p_stat :=
    stat_engine.calculate_probability math_exp float_pow
      (home_goals_avg request) (away_goals_avg request)
      (home_win_rate request) (away_win_rate request) in
  p_fuzzy <-
    fuzzy_engine.calculate_probability
      (home_goals_avg request) (away_goals_avg request)
      (odds_home request) (odds_draw request) (odds_away request) ;;
  p_hybrid <- hybrid_engine.combine_probabilities_default p_stat p_fuzzy ;;
  Ok (p_stat, p_fuzzy, p_hybrid).

(** The body of the handler's [try].  A [Raise] is what the handler's
    [except Exception] answers with status 500.  (The response model's
    range check on the nine probabilities is not modelled: each is the
    [round] of a number the engines clamp to [[0, 1]].) *)
Definition predict (request : PredictionRequest) : result PredictionResponse :=
  if (home_goals_avg request <? 0) || (away_goals_avg request <? 0)
  then Raise ValueError
  else if negb ((0 <? home_win_rate request) && (home_win_rate request <? 1))
  then Raise ValueError
  else if negb ((0 <? away_win_rate request) && (away_win_rate request <? 1))
  then Raise ValueError
  else
    '(p_stat, p_fuzzy, p_hybrid) <- predictions request ;;
    '(best_outcome, best_probability, best_odds) <- best_bet request p_hybrid ;;
    '(kelly_fraction, recommended_stake) <-
      kelly.calculate_stake best_probability best_odds
        (bankroll request) (kelly_fraction request) ;;
    let '(s0, s1, s2) := p_stat in
    let '(f0, f1, f2) := p_fuzzy in
    let '(h0, h1, h2) := p_hybrid in
    Ok {| p_stat_home := py_round s0 4;
          p_stat_draw := py_round s1 4;
          p_stat_away := py_round s2 4;
          p_fuzzy_home := py_round f0 4;
          p_fuzzy_draw := py_round f1 4;
          p_fuzzy_away := py_round f2 4;
          p_hybrid_home := py_round h0 4;
          p_hybrid_draw := py_round h1 4;
          p_hybrid_away := py_round h2 4;
          r_kelly_fraction := kelly_fraction;
          recommended_stake := recommended_stake;
          recommended_outcome := best_outcome |}.

End WithLibm.

End main.

(** ** [app/schemas.py] *)

(** The constraint [ge=0, le=1] of a field. *)
Definition in_unit (p : float) : bool := (0 <=? p) && (p <=? 1).

Module schemas.

(** The constraints of [PredictionResponse]: [ge=0, le=1] on each of the
    nine probabilities, none on the recommendation. *)
Definition response_valid (r : main.PredictionResponse) : bool :=
  in_unit (main.p_stat_home r) && in_unit (main.p_stat_draw r)
  && in_unit (main.p_stat_away r)
  && in_unit (main.p_fuzzy_home r) && in_unit (main.p_fuzzy_draw r)
  && in_unit (main.p_fuzzy_away r)
  && in_unit (main.p_hybrid_home r) && in_unit (main.p_hybrid_draw r)
  && in_unit (main.p_hybrid_away r).

End schemas.

(** ** The [/upload-data] and [/backtest] handlers of [app/main.py] *)

Module endpoints.

(** What a handler answers: its response, or an [HTTPException] with its
    status code. *)
Inductive http (A : Type) :=
| Response (a : A)
| HTTPException (status_code : Z).
Arguments Response {A} a.
Arguments HTTPException {A} status_code.

(** A Python [str], as the sequence of its code points. *)
Definition pystr : Type := list N.

(** [c.isalnum()]: on ASCII, the digits and the letters; beyond ASCII, what
    the Unicode database says, a parameter here. *)
Definition isalnum (unicode_isalnum : N -> bool) (c : N) : bool :=
  if (c <? 128)%N
  then ((48 <=? c) && (c <=? 57) || (65 <=? c) && (c <=? 90)
        || (97 <=? c) && (c <=? 122))%N
  else unicode_isalnum c.

(** ['.csv'], ['-'], ['_'], ['.'], the separator ['/'] and ["data"] *)
Definition dot_csv : pystr := [46; 99; 115; 118]%N.
Definition hyphen : N := 45.
Definition underscore : N := 95.
Definition dot : N := 46.
Definition slash : N := 47.
Definition upload_dir : pystr := [100; 97; 116; 97]%N.

Fixpoint startswith (s prefix : pystr) : bool :=
  match prefix, s with
  | [], _ => true
  | p :: prefix', c :: s' => (c =? p)%N && startswith s' prefix'
  | _ :: _, [] => false
  end.

Definition endswith (s suffix : pystr) : bool :=
  startswith (rev s) (rev suffix).

(** [os.path.join(a, b)] of [posixpath], on two components. *)
Definition os_path_join (a b : pystr) : pystr :=
  if startswith b [slash] then b
  else if match a with [] => true | _ => endswith a [slash] end then a ++ b
  else a ++ [slash] ++ b.

(** ["".join(c for c in filename if c.isalnum() or c in ('-', '_', '.'))] *)
Definition safe_filename (unicode_isalnum : N -> bool) (filename : pystr) : pystr :=
  filter (fun c => isalnum unicode_isalnum c
                   || (c =? hyphen)%N || (c =? underscore)%N || (c =? dot)%N)
         filename.

(** The head of [upload_data]: the file type check and the path the upload
    is written to.  [None] is the [HTTPException(400)] for a name that does
    not end in [.csv]. *)
Definition upload_file_path (unicode_isalnum : N -> bool) (filename : pystr)
  : option pystr :=
  if negb (endswith filename dot_csv) then None
  else Some (os_path_join upload_dir (safe_filename unicode_isalnum filename)).

Section WithLibm.

Variable math_exp : float -> float.
Variable float_pow : float -> Z -> float.

(** [run_backtest()], the [/backtest] handler.  [uploaded_data] is the
    module's global ([None] until an upload stores its path); [files] gives
    the rows of the CSV file at a path, [None] where there is no such file.
    The backtester is called with its default bankroll 7000.0.  When it
    returns [None] the subscript [result["roi"]] raises, and the handler
    answers every exception of its [try] with status 500.
    [BacktestResponse] has the fields of the report. *)
Definition run_backtest (uploaded_data : option pystr)
  (files : pystr -> option (list backtester.row)) : http backtester.report :=
  match uploaded_data with
  | None => HTTPException 400
  | Some [] => HTTPException 400
  | Some path =>
      match backtester.run_backtest math_exp float_pow (files path) 7000.0 with
      | Ok (Some result) =>
          Response {| backtester.roi := backtester.roi result;
                      backtester.r_total_bets := backtester.r_total_bets result;
                      backtester.r_winning_bets := backtester.r_winning_bets result;
                      backtester.r_losing_bets := backtester.r_losing_bets result;
                      backtester.r_equity_curve := backtester.r_equity_curve result;
                      backtester.final_bankroll := backtester.final_bankroll result |}
      | Ok None => HTTPException 500
      | Raise _ => HTTPException 500
      end
  end.

End WithLibm.

End endpoints.

(** ** A reference C library

    The closed examples below need values for [math.exp] and [**].  These
    two functions compute them in integer arithmetic and round once, to the
    nearest double: [ref_pow x k] is the correctly rounded [x ^ k], and
    [ref_exp x] sums 80 terms of the exponential series of [|x|] in fixed
    point with 256 fractional bits (taking the reciprocal when [x < 0]),
    which on the engine's range [|x| <= 5.75] is exact to more than 200
    bits before the final rounding. *)

Definition ref_pow (x : float) (k : Z) : float :=
  match Prim2SF x with
  | S754_finite s m e =>
      SF2Prim (binary_normalize prec emax
                 ((if s then Zneg m else Zpos m) ^ k) (e * k) false)
  | _ => if (k =? 0)%Z then 1 else x
  end.

(** The terms [t_k = t_(k-1) * x / k] of the series for [x = n/d], scaled,
    added to [acc]. *)
Fixpoint exp_terms (n d : Z) (i : nat) (k t acc : Z) : Z :=
  match i with
  | O => acc
  | S j =>
      let t' := (t * n / (d * k))%Z in
      exp_terms n d j (k + 1)%Z t' (acc + t')%Z
  end.

Definition ref_exp (x : float) : float :=
  match Prim2SF x with
  | S754_finite s m e =>
      let '(n, d) :=
        if (0 <=? e)%Z then (Zpos m * 2 ^ e, 1)%Z else (Zpos m, 2 ^ (- e))%Z in
      let one := (2 ^ 256)%Z in
      let sum := exp_terms n d 80 1 one one in
      if s then SF2Prim (SFdiv prec emax (SF_of_Z false one) (SF_of_Z false sum))
      else SF2Prim (SFdiv prec emax (SF_of_Z false sum) (SF_of_Z false one))
  | S754_zero _ => 1
  | S754_infinity true => 0
  | _ => x
  end.

(** * Definitions the statements use *)

Import backtester.

(** A float that is neither a zero nor NaN, in its specification form. *)
Definition SF_nonzero (x : spec_float) : bool :=
  match x with
  | S754_finite _ _ _ | S754_infinity _ => true
  | _ => false
  end.

(** [n / 10^4] rounded to the nearest double: what [round(x, 4)] returns
    when the decimal it rounds to is [n / 10^4]. *)
Definition round4_of (n : Z) : float :=
  SF2Prim (SFdiv prec emax (SF_of_Z false n) (SF_of_Z false 10000)).

(** A row all of whose eight fields convert. *)
Definition parsed_row (hg ag hw aw oh od oa : float) (out : Z) : row :=
  {| home_goals_avg := Parsed hg;
     away_goals_avg := Parsed ag;
     home_win_rate := Parsed hw;
     away_win_rate := Parsed aw;
     odds_home := Parsed oh;
     odds_draw := Parsed od;
     odds_away := Parsed oa;
     outcome := Parsed out |}.

(** The gate as the specification words it: one of the three odds is
    [>= 1.0], or a win rate is not within [[0, 1]]. *)
Definition fails_gate (oh od oa hw aw : float) : Prop :=
  (1 <=? oh) = true \/ (1 <=? od) = true \/ (1 <=? oa) = true
  \/ ((0 <=? hw) && (hw <=? 1)) = false
  \/ ((0 <=? aw) && (aw <=? 1)) = false.

(** A row that fails numeric parsing (a conversion raises [ValueError]) or
    that converts and fails the gate. *)
Definition row_rejected (r : row) : Prop :=
  parse_row r = Raise ValueError
  \/ exists x, parse_row r = Ok x
               /\ fails_gate (f_odds_home x) (f_odds_draw x) (f_odds_away x)
                    (f_home_win_rate x) (f_away_win_rate x).

(** The value of the local [kelly_capped] when the function gets that far. *)
Definition kelly_capped (probability odds kelly_fraction : float) : float :=
  let b := odds - 1 in
  let q := 1 - probability in
  py_min (py_max 0 ((probability * b - q) / b * kelly_fraction)) 0.05.

(** The two tests that return [(0.0, 0.0)] at once. *)
Definition no_bet (probability odds : float) : bool :=
  (probability <=? 0) || (1 <=? probability) || (odds <=? 1).

(** The combiner as the specification words it: normalise the two
    confidences to weights summing to 1 (both 0.5 when they sum to 0), take
    the weighted sum of the two distributions component by component,
    renormalise the three sums (uniform 1/3 when their total is not
    positive), clamp each to [[0, 1]]. *)
Module combiner_spec.

Definition weights (stat_confidence fuzzy_confidence : float) : float * float :=
  let total := stat_confidence + fuzzy_confidence in
  if total =? 0 then (0.5, 0.5)
  else (stat_confidence / total, fuzzy_confidence / total).

Definition weighted_sum (w : float * float) (s f : float) : float :=
  fst w * s + snd w * f.

Definition renormalize (p : triple) : triple :=
  let '(a, b, c) := p in
  let total := a + b + c in
  if 0 <? total then (a / total, b / total, c / total) else (1 / 3, 1 / 3, 1 / 3).

Definition clamp (p : triple) : triple :=
  let '(a, b, c) := p in (clamp01 a, clamp01 b, clamp01 c).

Definition combine (p_stat p_fuzzy : triple) (stat_confidence fuzzy_confidence : float)
  : triple :=
  let '(s0, s1, s2) := p_stat in
  let '(f0, f1, f2) := p_fuzzy in
  let w := weights stat_confidence fuzzy_confidence in
  clamp (renormalize (weighted_sum w s0 f0, weighted_sum w s1 f1, weighted_sum w s2 f2)).

End combiner_spec.

(** A row with genuine decimal odds: the row of the specification's
    single-row scenario. *)
Definition scenario_row : row := parsed_row 1.5 1.2 0.55 0.45 2.0 3.5 3.8 1.

(** A valid [/predict] request with a large edge on the home win. *)
Definition cap_request : main.PredictionRequest :=
  {| main.home_goals_avg := 2.5; main.away_goals_avg := 0.8;
     main.home_win_rate := 0.7; main.away_win_rate := 0.2;
     main.odds_home := 3.0; main.odds_draw := 3.5; main.odds_away := 2.5;
     main.bankroll := 1000; main.kelly_fraction := 1 |}.

(** A CSV field the reader gave no value for, and one whose text is not a
    number. *)
Definition is_absent {A : Type} (f : field A) : bool :=
  match f with Absent => true | _ => false end.
Definition is_malformed {A : Type} (f : field A) : bool :=
  match f with Malformed => true | _ => false end.

Definition row_has_absent (r : row) : bool :=
  is_absent (home_goals_avg r) || is_absent (away_goals_avg r)
  || is_absent (home_win_rate r) || is_absent (away_win_rate r)
  || is_absent (odds_home r) || is_absent (odds_draw r)
  || is_absent (odds_away r) || is_absent (outcome r).

Definition row_has_malformed (r : row) : bool :=
  is_malformed (home_goals_avg r) || is_malformed (away_goals_avg r)
  || is_malformed (home_win_rate r) || is_malformed (away_win_rate r)
  || is_malformed (odds_home r) || is_malformed (odds_draw r)
  || is_malformed (odds_away r) || is_malformed (outcome r).

(** A row inside the gate (odds 0.5, 0.4, 0.3), and a row of a file whose
    header has no [outcome] column. *)
Definition gate_row : row := parsed_row 1.5 1.2 0.55 0.45 0.5 0.4 0.3 1.

Definition headerless_row : row :=
  {| home_goals_avg := Parsed 1.5; away_goals_avg := Parsed 1.2;
     home_win_rate := Parsed 0.55; away_win_rate := Parsed 0.45;
     odds_home := Parsed 2.0; odds_draw := Parsed 3.5; odds_away := Parsed 3.8;
     outcome := Absent |}.

(** The report of a run of the [/backtest] handler that places no bet. *)
Definition idle_report : report :=
  {| roi := 0; r_total_bets := 0; r_winning_bets := 0; r_losing_bets := 0;
     r_equity_curve := [7000]; final_bankroll := 7000 |}.

(** The four divisors of the implied probabilities, in the order the fuzzy
    engine (and the handler's edge computation) divides by them: one of
    them is zero. *)
Definition fuzzy_divides_by_zero (odds_home odds_draw odds_away : float) : bool :=
  (odds_home =? 0) || (odds_draw =? 0) || (odds_away =? 0)
  || (1 / odds_home + 1 / odds_draw + 1 / odds_away =? 0).

(** A float above zero, in its specification form. *)
Definition SF_positive (x : spec_float) : bool :=
  match x with
  | S754_finite false _ _ | S754_infinity false => true
  | _ => false
  end.

(** The three checks that open the [/predict] handler's [try]. *)
Definition handler_accepts (r : main.PredictionRequest) : bool :=
  negb ((main.home_goals_avg r <? 0) || (main.away_goals_avg r <? 0))
  && ((0 <? main.home_win_rate r) && (main.home_win_rate r <? 1))
  && ((0 <? main.away_win_rate r) && (main.away_win_rate r <? 1)).

Definition finite_odds (r : main.PredictionRequest) : bool :=
  is_finite (main.odds_home r) && is_finite (main.odds_draw r)
  && is_finite (main.odds_away r).

(** The order of the floats that are not NaN, as a lexicographic order on
    integer triples: class (infinities, finite of either sign, zero),
    exponent, mantissa. *)
Definition SF_key (x : spec_float) : Z * Z * Z :=
  match x with
  | S754_infinity true => (-2, 0, 0)%Z
  | S754_finite true m e => (-1, - e, - Z.pos m)%Z
  | S754_zero _ | S754_nan => (0, 0, 0)%Z
  | S754_finite false m e => (1, e, Z.pos m)%Z
  | S754_infinity false => (2, 0, 0)%Z
  end.

Definition lex3 (a b : Z * Z * Z) : comparison :=
  let '(a1, a2, a3) := a in
  let '(b1, b2, b3) := b in
  match (a1 ?= b1)%Z with
  | Eq => match (a2 ?= b2)%Z with Eq => (a3 ?= b3)%Z | c => c end
  | c => c
  end.

Definition SF_is_nan (x : spec_float) : bool :=
  match x with S754_nan => true | _ => false end.

(** The component of a triple that belongs to an outcome. *)
Definition pick {A : Type} (out : main.outcome_name) (t : A * A * A) : A :=
  match out with
  | main.home => fst (fst t)
  | main.draw => snd (fst t)
  | main.away => snd t
  end.

Definition request_odds (r : main.PredictionRequest) : triple :=
  (main.odds_home r, main.odds_draw r, main.odds_away r).

(** The dictionary [edges] of the [/predict] handler: hybrid probability
    minus normalised inverse odds, per outcome. *)
Definition edges (r : main.PredictionRequest) (p_hybrid : triple) : triple :=
  let '(h0, h1, h2) := p_hybrid in
  let total_odds_inv := 1 / main.odds_home r + 1 / main.odds_draw r + 1 / main.odds_away r in
  (h0 - 1 / main.odds_home r / total_odds_inv,
   h1 - 1 / main.odds_draw r / total_odds_inv,
   h2 - 1 / main.odds_away r / total_odds_inv).

(** * Facts about binary64 comparisons and arithmetic *)

Lemma SFcompare_antisym (x y : spec_float) :
  SFcompare y x = option_map CompOpp (SFcompare x y).
Proof.
  destruct x as [[]|[]| |[] m e], y as [[]|[]| |[] m' e']; cbn; try reflexivity.
  all: rewrite (Z.compare_antisym e e'); destruct (e ?= e')%Z; cbn; try reflexivity.
  all: now rewrite (Pos.compare_cont_antisym m m' Eq).
Qed.

Lemma ltb_leb (a b : float) : (a <? b) = true -> (a <=? b) = true.
Proof.
  rewrite ltb_spec, leb_spec. unfold SFltb, SFleb.
  now destruct (SFcompare (Prim2SF a) (Prim2SF b)) as [[]|].
Qed.

Lemma ltb_neq (a b : float) : (a <? b) = true -> (b =? a) = false.
Proof.
  rewrite ltb_spec, eqb_spec. unfold SFltb, SFeqb.
  rewrite (SFcompare_antisym (Prim2SF a) (Prim2SF b)).
  now destruct (SFcompare (Prim2SF a) (Prim2SF b)) as [[]|].
Qed.

Lemma ltb_not_nan_r (a b : float) : (a <? b) = true -> (b =? b) = true.
Proof.
  rewrite ltb_spec, eqb_spec. unfold SFltb, SFeqb.
  destruct (Prim2SF a) as [[]|[]| |[] m e], (Prim2SF b) as [[]|[]| |[] m' e'];
    cbn; try discriminate; try reflexivity; intros _.
  all: rewrite Z.compare_refl, Pos.compare_cont_refl; reflexivity.
Qed.

Lemma nltb_leb (a b : float) :
  (b <? a) = false -> (a =? a) = true -> (b =? b) = true -> (a <=? b) = true.
Proof.
  rewrite ltb_spec, leb_spec, !eqb_spec. unfold SFltb, SFleb, SFeqb.
  rewrite (SFcompare_antisym (Prim2SF a) (Prim2SF b)).
  destruct (SFcompare (Prim2SF a) (Prim2SF b)) as [[]|] eqn:E; cbn;
    try discriminate; try reflexivity.
  intros _. destruct (Prim2SF a) as [[]|[]| |[] m e], (Prim2SF b) as [[]|[]| |[] m' e'];
    cbn in *; discriminate.
Qed.

(** A division under the guard [if total > 0] cannot raise. *)
Lemma guarded_div (x total : float) :
  (0 <? total) = true -> py_div x total = Ok (x / total).
Proof.
  intros H. unfold py_div. now rewrite (ltb_neq _ _ H).
Qed.

(** The clamp lands in [[0, 1]] whatever it is given, NaN included. *)
Lemma clamp01_range (p : float) :
  (0 <=? clamp01 p) = true /\ (clamp01 p <=? 1) = true.
Proof.
  unfold clamp01, py_max, py_min.
  destruct (p <? 1) eqn:H1.
  - destruct (0 <? p) eqn:H0; [split; now apply ltb_leb | now split].
  - now split.
Qed.

(** ** Rounding to binary64 never produces a zero from a nonzero integer
    scaled by an exponent above [emin] *)

Section Rounding.

Local Open Scope Z_scope.

Lemma digits2_pos_bounds (m : positive) :
  2 ^ (Zpos (digits2_pos m) - 1) <= Zpos m < 2 ^ Zpos (digits2_pos m).
Proof.
  induction m as [m IH|m IH|]; cbn [digits2_pos].
  - rewrite Pos2Z.inj_succ. replace (Z.succ (Zpos (digits2_pos m)) - 1) with (Zpos (digits2_pos m)) by lia.
    rewrite Z.pow_succ_r by lia.
    replace (2 ^ Zpos (digits2_pos m)) with (2 * 2 ^ (Zpos (digits2_pos m) - 1)) in *
      by (rewrite <- Z.pow_succ_r by lia; f_equal; lia).
    lia.
  - rewrite Pos2Z.inj_succ. replace (Z.succ (Zpos (digits2_pos m)) - 1) with (Zpos (digits2_pos m)) by lia.
    rewrite Z.pow_succ_r by lia.
    replace (2 ^ Zpos (digits2_pos m)) with (2 * 2 ^ (Zpos (digits2_pos m) - 1)) in *
      by (rewrite <- Z.pow_succ_r by lia; f_equal; lia).
    lia.
  - cbn. lia.
Qed.

Lemma shr_1_m (r : shr_record) : 0 <= shr_m r -> shr_m (shr_1 r) = shr_m r / 2.
Proof.
  destruct r as [m r s]. cbn [shr_m]. intros H.
  destruct m as [|[p|p|]|p]; cbn [shr_1 shr_m]; try reflexivity.
  - change (Z.pos p~1) with (2 * Z.pos p + 1). apply Z.div_unique with 1; lia.
  - change (Z.pos p~0) with (2 * Z.pos p). apply Z.div_unique with 0; lia.
  - lia.
Qed.

Lemma iter_shr_1_m (p : positive) (r : shr_record) :
  0 <= shr_m r -> shr_m (iter_pos shr_1 p r) = shr_m r / 2 ^ Zpos p.
Proof.
  revert r. induction p as [p IH|p IH|]; intros r H; cbn [iter_pos].
  - assert (H1 : 0 <= shr_m (shr_1 r)) by (rewrite shr_1_m by assumption; apply Z.div_pos; lia).
    assert (H2 : 0 <= shr_m (iter_pos shr_1 p (shr_1 r))) by (rewrite IH by assumption; apply Z.div_pos; lia).
    rewrite IH, IH, shr_1_m by assumption.
    assert (P : 0 < 2 ^ Zpos p) by (apply Z.pow_pos_nonneg; lia).
    rewrite !Z.div_div by lia. f_equal.
    change (Z.pos p~1) with (2 * Z.pos p + 1).
    replace (2 * Zpos p + 1) with (1 + Zpos p + Zpos p) by lia.
    rewrite !Z.pow_add_r by lia. change (2 ^ 1) with 2. lia.
  - assert (H2 : 0 <= shr_m (iter_pos shr_1 p r)) by (rewrite IH by assumption; apply Z.div_pos; lia).
    rewrite IH, IH by assumption.
    assert (P : 0 < 2 ^ Zpos p) by (apply Z.pow_pos_nonneg; lia).
    rewrite !Z.div_div by lia. f_equal.
    change (Z.pos p~0) with (2 * Z.pos p).
    replace (2 * Zpos p) with (Zpos p + Zpos p) by lia.
    rewrite !Z.pow_add_r by lia. lia.
  - rewrite shr_1_m by assumption. reflexivity.
Qed.

Lemma shr_fexp_pos (m e : Z) (l : location) :
  emin <= e -> 0 < m ->
  0 < shr_m (fst (shr_fexp prec emax m e l))
  /\ emin <= snd (shr_fexp prec emax m e l).
Proof.
  intros He Hm. destruct m as [|p|p]; try lia.
  unfold shr_fexp, shr. cbn [Zdigits2].
  pose proof (digits2_pos_bounds p) as [D1 D2].
  set (d := Z.pos (digits2_pos p)) in *.
  assert (R : shr_m (shr_record_of_loc (Z.pos p) l) = Z.pos p)
    by (destruct l as [|[]]; reflexivity).
  destruct (fexp prec emax (d + e) - e) as [|q|q] eqn:N; cbn [fst snd].
  - rewrite R. lia.
  - rewrite iter_shr_1_m, R by (rewrite R; lia).
    unfold fexp, SpecFloat.emin, prec, emax in *.
    assert (Q : Z.pos q = d - 53) by lia.
    split; [|lia].
    apply Z.div_str_pos. split; [apply Z.pow_pos_nonneg; lia|].
    apply Z.le_trans with (2 ^ (d - 1)); [|assumption].
    apply Z.pow_le_mono_r; lia.
  - rewrite R. lia.
Qed.

Lemma binary_round_aux_nonzero (s : bool) (m e : Z) (l : location) :
  emin <= e -> 0 < m ->
  SF_nonzero (binary_round_aux prec emax s m e l) = true.
Proof.
  intros He Hm. unfold binary_round_aux.
  pose proof (shr_fexp_pos m e l He Hm) as [P1 P2].
  destruct (shr_fexp prec emax m e l) as [mrs' e']. cbn [fst snd] in *.
  set (m1 := round_nearest_even _ _).
  assert (Hm1 : 0 < m1).
  { unfold m1, round_nearest_even.
    destruct (loc_of_shr_record mrs') as [|[]]; try lia.
    destruct (Z.even _); lia. }
  pose proof (shr_fexp_pos m1 e' loc_Exact P2 Hm1) as [Q1 Q2].
  destruct (shr_fexp prec emax m1 e' loc_Exact) as [mrs'' e'']. cbn [fst snd] in *.
  destruct (shr_m mrs''); try lia.
  destruct (_ <=? _); reflexivity.
Qed.

Lemma binary_normalize_nonzero (m e : Z) (sz : bool) :
  emin <= e -> m <> 0 ->
  SF_nonzero (binary_normalize prec emax m e sz) = true.
Proof.
  intros He Hm. unfold binary_normalize, binary_round.
  assert (A : forall s p,
             SF_nonzero
               (let '(mz, ez) :=
                  shl_align p e (fexp prec emax (Z.pos (digits2_pos p) + e)) in
                binary_round_aux prec emax s (Z.pos mz) ez loc_Exact) = true).
  { intros s p. unfold shl_align.
    assert (F : emin <= fexp prec emax (Z.pos (digits2_pos p) + e))
      by (unfold fexp; lia).
    destruct (fexp prec emax (Z.pos (digits2_pos p) + e) - e);
      apply binary_round_aux_nonzero; lia. }
  destruct m as [|p|p]; [lia| apply A | apply A].
Qed.

(** The valid floats have their exponent above [emin] and a mantissa of at
    most [prec] digits, of exactly [prec] digits above [emin]. *)
Lemma valid_finite (s : bool) (m : positive) (e : Z) :
  valid_binary (S754_finite s m e) = true ->
  emin <= e /\ Z.pos m < 2 ^ 53
  /\ (emin < e -> 2 ^ 52 <= Z.pos m).
Proof.
  cbn [valid_binary]. unfold bounded, canonical_mantissa.
  intros H. apply andb_prop in H as [H _]. apply Z.eqb_eq in H.
  pose proof (digits2_pos_bounds m) as [D1 D2].
  set (d := Z.pos (digits2_pos m)) in *.
  unfold fexp, SpecFloat.emin, prec, emax in *.
  assert (d <= 53) by lia.
  split; [lia|]. split.
  - apply Z.lt_le_trans with (2 ^ d); [assumption|]. apply Z.pow_le_mono_r; lia.
  - intros He. assert (d = 53) by lia. subst d. now replace 52 with (53 - 1) by lia; rewrite <- H1.
Qed.

Lemma iter_xO_ge (m d : positive) : (2 * Z.pos m <= Z.pos (Pos.iter xO m d))%Z.
Proof.
  induction d as [|d IH] using Pos.peano_ind.
  - cbn. lia.
  - rewrite Pos.iter_succ. change (Z.pos (Pos.iter xO m d)~0) with (2 * Z.pos (Pos.iter xO m d))%Z. lia.
Qed.

End Rounding.

(** With odds above 1, [b = odds - 1] is not zero: the division by [b] in
    the Kelly formula cannot raise. *)
Lemma sub_one_nonzero (odds : float) :
  (odds <=? 1) = false -> (odds - 1 =? 0) = false.
Proof.
  rewrite leb_spec, eqb_spec, sub_spec.
  pose proof (Prim2SF_valid odds) as V.
  change (Prim2SF 1) with (S754_finite false 4503599627370496 (-52)).
  change (Prim2SF 0) with (S754_zero false).
  destruct (Prim2SF odds) as [s|s| |s m e].
  - destruct s; cbn; discriminate.
  - destruct s; cbn; intros; try discriminate; reflexivity.
  - reflexivity.
  - intros C.
    assert (N : SF_nonzero (SF64sub (S754_finite s m e)
                              (S754_finite false 4503599627370496 (-52))) = true).
    { apply valid_finite in V as (V1 & V2 & V3).
      unfold SF64sub, SFsub. apply binary_normalize_nonzero.
      - unfold SpecFloat.emin, prec, emax in *. lia.
      - unfold SFleb, SFcompare in C. destruct s; [discriminate|].
        unfold shl_align, cond_Zopp.
        assert (E1 : (-52 <= e)%Z)
          by (destruct (e ?= -52)%Z eqn:E; [apply Z.compare_eq in E| |apply Z.compare_gt_iff in E]; try lia; discriminate).
        replace (IntDef.Z.min e (-52)) with (-52)%Z by (symmetry; apply Z.min_r; lia).
        change (-52 - -52)%Z with 0%Z. cbn [fst].
        destruct (-52 - e)%Z as [|d|d] eqn:D; cbn [fst].
        + assert (e = -52)%Z by lia. subst e. intros Hz.
          assert (m = 4503599627370496%positive) by lia. subst m.
          vm_compute in C. discriminate C.
        + lia.
        + pose proof (iter_xO_ge m d).
          unfold SpecFloat.emin, prec, emax in *.
          assert (2 ^ 52 <= Z.pos m)%Z by (apply V3; lia). lia. }
    unfold SFeqb. destruct (SF64sub _ _) as [|[]| |[]]; try discriminate; reflexivity.
Qed.

(** ** Finite floats *)

Lemma leb_nltb (a b : float) : (a <=? b) = true -> (b <? a) = false.
Proof.
  rewrite ltb_spec, leb_spec. unfold SFltb, SFleb.
  rewrite (SFcompare_antisym (Prim2SF a) (Prim2SF b)).
  now destruct (SFcompare (Prim2SF a) (Prim2SF b)) as [[]|].
Qed.

Lemma is_finite_cases (x : float) :
  is_finite x = true ->
  (exists s, Prim2SF x = S754_zero s) \/ (exists s m e, Prim2SF x = S754_finite s m e).
Proof.
  unfold is_finite, is_nan, is_infinity.
  rewrite !eqb_spec, abs_spec.
  change (Prim2SF infinity) with (S754_infinity false).
  destruct (Prim2SF x) as [s|[]| |s m e]; cbn; try discriminate; intros _.
  - left. now exists s.
  - right. now exists s, m, e.
Qed.

Lemma mul_zero_finite (x : float) :
  is_finite x = true -> (x * 0 =? 0) = true /\ py_round (x * 0) 2 = x * 0.
Proof.
  intros F. 
  assert (Z : exists s, Prim2SF (x * 0) = S754_zero s).
  { rewrite mul_spec. change (Prim2SF 0) with (S754_zero false).
    destruct (is_finite_cases x F) as [[s ->]|(s & m & e & ->)]; cbn; eauto. }
  destruct Z as [s Z]. split.
  - rewrite eqb_spec, Z. reflexivity.
  - unfold py_round. now rewrite Z.
Qed.

Lemma mul_zero_pos_finite (x : float) :
  is_finite x = true -> (0 <? x) = true -> x * 0 = 0.
Proof.
  intros F P. apply Prim2SF_inj. rewrite mul_spec.
  rewrite ltb_spec in P. revert P.
  change (Prim2SF 0) with (S754_zero false).
  destruct (is_finite_cases x F) as [[s ->]|(s & m & e & ->)]; cbn; [discriminate|].
  now destruct s.
Qed.

(** [(x - x) / x * 100] for a finite positive [x]. *)
Lemma roi_unchanged (x : float) :
  is_finite x = true -> (0 <? x) = true -> (x - x) / x * 100 = 0.
Proof.
  intros F P. apply Prim2SF_inj. rewrite mul_spec, div_spec, sub_spec.
  rewrite ltb_spec in P. revert P.
  change (Prim2SF 0) with (S754_zero false).
  destruct (is_finite_cases x F) as [[s ->]|(s & m & e & ->)]; cbn; [discriminate|].
  destruct s; [discriminate|]. intros _.
  unfold SF64sub, SFsub. rewrite Z.sub_diag. cbn. reflexivity.
Qed.

(** ** [round(f, 4)] of a fraction in [[0, 0.05]] stays there

    The rounded value is [n / 10^4] for an integer [n] between 0 and 500;
    each of these 501 quotients is checked by evaluation. *)

Lemma round4_small_all :
  forallb (fun i => (0 <=? round4_of (Z.of_nat i)) && (round4_of (Z.of_nat i) <=? 0.05))
          (seq 0 501) = true.
Proof. vm_compute. reflexivity. Qed.

Lemma round4_small (n : Z) :
  (0 <= n <= 500)%Z ->
  (0 <=? round4_of n) = true /\ (round4_of n <=? 0.05) = true.
Proof.
  intros H. pose proof round4_small_all as A.
  rewrite forallb_forall in A. specialize (A (Z.to_nat n)).
  rewrite Z2Nat.id in A by lia. apply andb_prop. apply A.
  apply in_seq. lia.
Qed.

Lemma round_half_even_div_bounds (n d : Z) :
  (0 <= n)%Z -> (0 < d)%Z ->
  (n / d <= round_half_even_div n d <= n / d + 1)%Z
  /\ (2 * (n mod d) < d -> round_half_even_div n d = n / d)%Z.
Proof.
  intros Hn Hd. unfold round_half_even_div.
  destruct (Z.compare_spec (2 * (n mod d)) d) as [E|E|E]; try destruct (Z.even _); lia.
Qed.

Lemma py_round4_capped (f : float) :
  (0 <=? f) = true -> (f <=? 0.05) = true ->
  (0 <=? py_round f 4) = true /\ (py_round f 4 <=? 0.05) = true.
Proof.
  intros H0 H5. unfold py_round.
  pose proof (Prim2SF_valid f) as V.
  pose proof H0 as H0'. pose proof H5 as H5'.
  rewrite leb_spec in H0', H5'.
  change (Prim2SF 0) with (S754_zero false) in H0'.
  change (Prim2SF 0.05) with (S754_finite false 7205759403792794 (-57)) in H5'.
  destruct (Prim2SF f) as [s|s| |s m e]; try (now split).
  destruct (0 <=? e)%Z eqn:E; [now split|].
  apply Z.leb_gt in E.
  destruct s; [discriminate|].
  apply valid_finite in V as (V1 & V2 & V3).
  change (10 ^ Z.of_nat 4)%Z with 10000%Z.
  apply round4_small.
  assert (D : (0 < 2 ^ (- e))%Z) by (apply Z.pow_pos_nonneg; lia).
  pose proof (round_half_even_div_bounds (Z.pos m * 10000) (2 ^ (- e)) ltac:(lia) D) as [[B1 B2] B3].
  assert (Q : (0 <= Z.pos m * 10000 / 2 ^ (- e))%Z) by (apply Z.div_pos; lia).
  split; [lia|].
  unfold SFleb, SFcompare in H5'.
  destruct (e ?= -57)%Z eqn:C.
  - apply Z.compare_eq in C. subst e. change (2 ^ (- -57))%Z with 144115188075855872%Z in *.
    assert (M : (Z.pos m <= 7205759403792794)%Z).
    { destruct (Pos.compare_cont Eq m 7205759403792794%positive) eqn:C2.
      - apply (Pos.compare_eq m) in C2. subst m. apply Z.le_refl.
      - apply Z.lt_le_incl. exact C2.
      - discriminate H5'. }
    pose proof (Z.div_mod (Z.pos m * 10000) 144115188075855872 ltac:(lia)).
    pose proof (Z.mod_pos_bound (Z.pos m * 10000) 144115188075855872 ltac:(lia)).
    lia.
  - change (e < -57)%Z in C.
    assert (P : (288230376151711744 <= 2 ^ (- e))%Z).
    { change 288230376151711744%Z with (2 ^ 58)%Z. apply Z.pow_le_mono_r; lia. }
    assert (L : (Z.pos m * 10000 / 2 ^ (- e) <= Z.pos m * 10000 / 288230376151711744)%Z).
    { apply Z.div_le_compat_l; lia. }
    assert (L2 : (Z.pos m * 10000 / 288230376151711744 < 313)%Z).
    { change (2 ^ 53)%Z with 9007199254740992%Z in V2.
      apply Z.div_lt_upper_bound; lia. }
    lia.
  - discriminate.
Qed.

(** * The backtest loop *)

(** The default confidences never make the combiner raise. *)
Lemma combine_default_total (p_stat p_fuzzy : triple) :
  exists p, hybrid_engine.combine_probabilities_default p_stat p_fuzzy = Ok p.
Proof.
  destruct p_stat as [[s0 s1] s2], p_fuzzy as [[f0 f1] f2].
  unfold hybrid_engine.combine_probabilities_default,
    hybrid_engine.combine_probabilities.
  cbn. destruct (0 <? _); eexists; reflexivity.
Qed.

Section BacktestFacts.

Variable math_exp : float -> float.
Variable float_pow : float -> Z -> float.

#[local] Abbreviation process_row := (backtester.process_row math_exp float_pow).
#[local] Abbreviation process_rows := (backtester.process_rows math_exp float_pow).
#[local] Abbreviation run_backtest := (backtester.run_backtest math_exp float_pow).
#[local] Abbreviation row_body := (backtester.row_body math_exp float_pow).

(** The edge check compares the three-component tuple [p_hybrid] with a
    number: whenever it is reached with nonzero home odds it raises. *)
Lemma edge_check_type_error (st : state) (p_hybrid : triple) (oh : float) (out : Z) :
  (oh =? 0) = false ->
  edge_check_and_bet st p_hybrid oh out = Raise TypeError.
Proof.
  intros H. unfold edge_check_and_bet, py_div. rewrite H. cbn.
  now destruct p_hybrid as [[h0 h1] h2].
Qed.

Lemma edge_check_never_ok (st st' : state) (p_hybrid : triple) (oh : float) (out : Z) :
  edge_check_and_bet st p_hybrid oh out <> Ok st'.
Proof.
  unfold edge_check_and_bet, py_div.
  destruct (oh =? 0); cbn; [discriminate|].
  destruct p_hybrid as [[h0 h1] h2]; discriminate.
Qed.

(** What one settled bet does to the state: it is counted once, and the
    bankroll it leaves is appended to the curve. *)
Lemma settle_records (st : state) (oh stake : float) (out : Z) :
  total_bets (settle st oh stake out) = (total_bets st + 1)%Z
  /\ equity_curve (settle st oh stake out)
     = equity_curve st ++ [bankroll (settle st oh stake out)]
  /\ bankroll (settle st oh stake out)
     = if (out =? 1)%Z then bankroll st + stake * (oh - 1) else bankroll st - stake.
Proof.
  unfold settle. destruct (out =? 1)%Z; cbn; repeat split; reflexivity.
Qed.

(** Each pass of the loop either leaves the state as it was or is one
    settled bet.  The proof follows the control flow of the loop body and
    does not depend on which branch a row can reach. *)
Lemma row_body_settles (st st' : state) (r : row) :
  row_body st r = Ok st' ->
  st' = st \/ exists oh stake out, st' = settle st oh stake out.
Proof.
  unfold backtester.row_body.
  destruct (parse_row r) as [x|]; cbn [bind]; [|discriminate].
  destruct (passes_gate x); cbn [negb]; [|intros [= <-]; now left].
  destruct (predict_fixture math_exp float_pow x) as [p_hybrid|]; cbn [bind];
    [|discriminate].
  unfold edge_check_and_bet.
  destruct (py_div _ _); cbn -[py_le kelly.calculate_stake_dyn]; [|discriminate].
  match goal with |- context [py_le ?a ?b] => destruct (py_le a b) as [[]|] end;
    cbn -[kelly.calculate_stake_dyn]; [intros [= <-]; now left| |discriminate].
  match goal with |- context [kelly.calculate_stake_dyn ?a ?b ?c ?d] =>
    destruct (kelly.calculate_stake_dyn a b c d) as [[kelly_frac stake]|] end;
    cbn; [|discriminate].
  destruct (stake <=? 0); intros [= <-]; [now left | right; eauto].
Qed.

Lemma process_row_settles (st st' : state) (r : row) :
  process_row st r = Ok st' ->
  st' = st \/ exists oh stake out, st' = settle st oh stake out.
Proof.
  unfold backtester.process_row.
  destruct (row_body st r) as [s|[]] eqn:E; try discriminate.
  - intros [= <-]. now apply row_body_settles with r.
  - intros [= <-]. now left.
  - intros [= <-]. now left.
Qed.

(** The loop only appends to the curve, one entry per bet it counts. *)
Lemma process_rows_snapshots (rows : list row) (st st' : state) :
  process_rows st rows = Ok st' ->
  exists snapshots,
    equity_curve st' = equity_curve st ++ snapshots
    /\ Z.of_nat (length snapshots) = (total_bets st' - total_bets st)%Z.
Proof.
  revert st. induction rows as [|r rows IH]; intros st.
  - intros [= <-]. exists []. rewrite app_nil_r. split; [reflexivity|cbn; lia].
  - change (process_rows st (r :: rows))
      with (bind (process_row st r) (fun s => process_rows s rows)).
    unfold bind. destruct (process_row st r) as [s|] eqn:E; [|discriminate].
    intros Hrest. destruct (IH s Hrest) as (snapshots & Hc & Hl).
    destruct (process_row_settles _ _ _ E) as [->|(oh & stake & out & ->)].
    + now exists snapshots.
    + destruct (settle_records st oh stake out) as (Hb & Ha & _).
      exists (bankroll (settle st oh stake out) :: snapshots). split.
      * rewrite Hc, Ha, <- app_assoc. reflexivity.
      * cbn [length]. lia.
Qed.

End BacktestFacts.

(** The fuzzy engine divides by the home odds first: if it returned, they
    are not zero. *)
Lemma fuzzy_ok_home_odds (hg ag oh od oa : float) (p : triple) :
  fuzzy_engine.calculate_probability hg ag oh od oa = Ok p -> (oh =? 0) = false.
Proof.
  unfold fuzzy_engine.calculate_probability, fuzzy_engine.fuzzify.
  unfold py_div at 1. destruct (oh =? 0); [discriminate | reflexivity].
Qed.

(** The loop body on a row whose fields all convert. *)
Lemma row_body_parsed
  (math_exp : float -> float) (float_pow : float -> Z -> float)
  (st : state) (hg ag hw aw oh od oa : float) (out : Z) :
  row_body math_exp float_pow st (parsed_row hg ag hw aw oh od oa out)
  = if negb (validate oh od oa hw aw) then Ok st
    else
      p_fuzzy <- fuzzy_engine.calculate_probability hg ag oh od oa ;;
      p_hybrid <-
        hybrid_engine.combine_probabilities_default
          (stat_engine.calculate_probability math_exp float_pow hg ag hw aw)
          p_fuzzy ;;
      edge_check_and_bet st p_hybrid oh out.
Proof.
  unfold row_body, parsed_row, predict_fixture, passes_gate; cbn [parse_row convert bind
    home_goals_avg away_goals_avg home_win_rate away_win_rate odds_home odds_draw
    odds_away outcome f_home_goals_avg f_away_goals_avg f_home_win_rate
    f_away_win_rate f_odds_home f_odds_draw f_odds_away f_outcome].
  destruct (validate oh od oa hw aw); cbn [negb]; [|reflexivity].
  now destruct (fuzzy_engine.calculate_probability hg ag oh od oa).
Qed.

(** * The validation gate *)

Lemma fails_gate_validate (oh od oa hw aw : float) :
  fails_gate oh od oa hw aw -> validate oh od oa hw aw = false.
Proof.
  unfold fails_gate, validate. intros H.
  destruct (1 <=? oh), (1 <=? od), (1 <=? oa),
    ((0 <=? hw) && (hw <=? 1)), ((0 <=? aw) && (aw <=? 1));
    cbn; try reflexivity.
  destruct H as [H|[H|[H|[H|H]]]]; discriminate.
Qed.

(** C3.  A row whose eight fields all convert and in which one of the three
    odds is [>= 1.0], or a win rate is not within [[0, 1]], is skipped: the
    state after the row (bankroll, equity curve, [total_bets],
    [winning_bets]) is the state before it. *)
Theorem validate_gate_skips_row
  (math_exp : float -> float) (float_pow : float -> Z -> float)
  (st : state) (hg ag hw aw oh od oa : float) (out : Z) :
  fails_gate oh od oa hw aw ->
  process_row math_exp float_pow st (parsed_row hg ag hw aw oh od oa out) = Ok st.
Proof.
  intros H. unfold process_row. rewrite row_body_parsed.
  now rewrite (fails_gate_validate _ _ _ _ _ H).
Qed.

Lemma validate_gate_skips_row_witness :
  process_row ref_exp ref_pow (initial_state 7000)
    (parsed_row 1.5 1.2 0.55 0.45 2.0 3.5 3.8 1)
  = Ok (initial_state 7000).
Proof.
  apply validate_gate_skips_row. left. reflexivity.
Defined.

(** * The edge check *)

(** C1.  A row that reaches the edge check (its fields convert, it passes
    the gate and the prediction returns) does not get a betting decision:
    the comparison of the tuple [p_hybrid] with [implied_prob + min_edge]
    raises [TypeError], which the row's handler does not catch, and the run
    ends with that exception. *)
Theorem edge_check_aborts_run
  (math_exp : float -> float) (float_pow : float -> Z -> float)
  (st : state) (hg ag hw aw oh od oa : float) (out : Z) (p_fuzzy : triple) :
  validate oh od oa hw aw = true ->
  fuzzy_engine.calculate_probability hg ag oh od oa = Ok p_fuzzy ->
  process_row math_exp float_pow st (parsed_row hg ag hw aw oh od oa out)
    = Raise TypeError
  /\ forall (rows : list row) (initial_bankroll : float),
      run_backtest math_exp float_pow
        (Some (parsed_row hg ag hw aw oh od oa out :: rows)) initial_bankroll
      = Raise TypeError.
Proof.
  intros V F.
  assert (R : forall s, process_row math_exp float_pow s
                          (parsed_row hg ag hw aw oh od oa out) = Raise TypeError).
  { intros s. unfold process_row. rewrite row_body_parsed, V, F.
    unfold bind at 1. cbn [negb].
    destruct (combine_default_total
                (stat_engine.calculate_probability math_exp float_pow hg ag hw aw)
                p_fuzzy) as [p ->].
    unfold bind.
    now rewrite (edge_check_type_error s p oh out (fuzzy_ok_home_odds _ _ _ _ _ _ F)). }
  split; [apply R|].
  intros rows initial_bankroll. unfold run_backtest.
  change (process_rows math_exp float_pow (initial_state initial_bankroll)
            (parsed_row hg ag hw aw oh od oa out :: rows))
    with (bind (process_row math_exp float_pow (initial_state initial_bankroll)
                  (parsed_row hg ag hw aw oh od oa out))
               (fun s => process_rows math_exp float_pow s rows)).
  now rewrite R.
Qed.

Lemma edge_check_aborts_run_witness :
  process_row ref_exp ref_pow (initial_state 7000)
    (parsed_row 1.5 1.2 0.55 0.45 0.5 0.5 0.5 1)
    = Raise TypeError
  /\ forall (rows : list row) (initial_bankroll : float),
      run_backtest ref_exp ref_pow
        (Some (parsed_row 1.5 1.2 0.55 0.45 0.5 0.5 0.5 1 :: rows)) initial_bankroll
      = Raise TypeError.
Proof.
  eapply edge_check_aborts_run; [reflexivity | vm_compute; reflexivity].
Defined.

(** * The equity curve *)

(** C6.  The Record step counts a settled bet once and appends its
    post-settlement bankroll to the curve; a pass of the loop is either a
    skip, which leaves counter and curve as they were, or one such settled
    bet; so the loop appends exactly one snapshot per bet it counts, and
    whenever [run_backtest] returns a report its equity curve starts with
    the seed and has [1 + total_bets] entries. *)
Theorem equity_curve_length
  (math_exp : float -> float) (float_pow : float -> Z -> float) :
  (forall (st : state) (oh stake : float) (out : Z),
      total_bets (settle st oh stake out) = (total_bets st + 1)%Z
      /\ equity_curve (settle st oh stake out)
         = equity_curve st ++ [bankroll (settle st oh stake out)]
      /\ bankroll (settle st oh stake out)
         = if (out =? 1)%Z then bankroll st + stake * (oh - 1)
           else bankroll st - stake)
  /\ (forall (st st' : state) (r : row),
        process_row math_exp float_pow st r = Ok st' ->
        st' = st \/ exists oh stake out, st' = settle st oh stake out)
  /\ (forall (rows : list row) (st st' : state),
        process_rows math_exp float_pow st rows = Ok st' ->
        exists snapshots,
          equity_curve st' = equity_curve st ++ snapshots
          /\ Z.of_nat (length snapshots) = (total_bets st' - total_bets st)%Z)
  /\ (forall (data : option (list row)) (initial_bankroll : float) (rep : report),
        run_backtest math_exp float_pow data initial_bankroll = Ok (Some rep) ->
        Z.of_nat (length (r_equity_curve rep)) = (1 + r_total_bets rep)%Z
        /\ hd_error (r_equity_curve rep) = Some (py_round initial_bankroll 2)).
Proof.
  split; [apply settle_records|].
  split; [apply process_row_settles|].
  split; [apply process_rows_snapshots|].
  intros data initial_bankroll rep.
  unfold run_backtest. destruct data as [rows|]; [|discriminate].
  destruct (process_rows math_exp float_pow (initial_state initial_bankroll) rows)
    as [st|] eqn:E; cbn -[Z.add]; [|discriminate].
  intros [= <-]. cbn -[Z.add].
  destruct (process_rows_snapshots math_exp float_pow rows _ _ E) as (snapshots & Hc & Hl).
  cbn [initial_state equity_curve total_bets] in Hc, Hl.
  rewrite Hc. cbn -[Z.add Z.of_nat]. rewrite length_map. split; [lia|reflexivity].
Qed.

(** A winning bet of 100 at odds 2.0 on the seed 7000: one bet counted,
    the curve grown by the bankroll 7100 it leaves. *)
Lemma equity_curve_length_witness :
  total_bets (settle (initial_state 7000) 2.0 100 1) = 1%Z
  /\ equity_curve (settle (initial_state 7000) 2.0 100 1) = [7000; 7100]
  /\ bankroll (settle (initial_state 7000) 2.0 100 1) = 7100.
Proof.
  exact (proj1 (equity_curve_length ref_exp ref_pow) (initial_state 7000) 2.0 100 1%Z).
Defined.

(** * Zero odds *)

(** C10.  A row exists whose fields convert, which passes the gate, and
    whose home odds are 0: the fuzzy engine's [1/odds_home] raises
    [ZeroDivisionError]; the row is not skipped, and a run that meets it
    returns no report. *)
Theorem zero_odds_row_aborts_run :
  exists (hg ag hw aw oh od oa : float) (out : Z),
    (oh =? 0) = true
    /\ validate oh od oa hw aw = true
    /\ fuzzy_engine.fuzzify hg ag oh od oa = Raise ZeroDivisionError
    /\ forall (math_exp : float -> float) (float_pow : float -> Z -> float)
         (st : state) (rows : list row) (initial_bankroll : float),
        process_row math_exp float_pow st (parsed_row hg ag hw aw oh od oa out)
          = Raise ZeroDivisionError
        /\ run_backtest math_exp float_pow
             (Some (parsed_row hg ag hw aw oh od oa out :: rows)) initial_bankroll
           = Raise ZeroDivisionError.
Proof.
  exists 1.5, 1.2, 0.55, 0.45, 0, 0.5, 0.5, 1%Z.
  repeat split; reflexivity.
Qed.

(** * The hybrid combiner *)

(** C9.  On [(1,0,0)], [(0,1,0)] with confidences 0.5 and 0.5 the combiner
    returns exactly [(0.5, 0.5, 0.0)]; on every input it returns (it never
    raises) the clamped, renormalised, confidence-weighted sum of the two
    distributions, each component of which lies in [[0, 1]]. *)
Theorem combine_probabilities_spec :
  hybrid_engine.combine_probabilities (1, 0, 0) (0, 1, 0) 0.5 0.5 = Ok (0.5, 0.5, 0)
  /\ forall (p_stat p_fuzzy : triple) (stat_confidence fuzzy_confidence : float),
      hybrid_engine.combine_probabilities p_stat p_fuzzy stat_confidence fuzzy_confidence
      = Ok (combiner_spec.combine p_stat p_fuzzy stat_confidence fuzzy_confidence)
      /\ (let '(h, d, a) :=
            combiner_spec.combine p_stat p_fuzzy stat_confidence fuzzy_confidence in
          (0 <=? h) && (h <=? 1) && (0 <=? d) && (d <=? 1) && (0 <=? a) && (a <=? 1))
         = true.
Proof.
  split; [reflexivity|].
  intros [[s0 s1] s2] [[f0 f1] f2] cs cf. split.
  - unfold hybrid_engine.combine_probabilities, combiner_spec.combine,
      combiner_spec.weights, combiner_spec.weighted_sum.
    destruct (cs + cf =? 0) eqn:E.
    + cbn. destruct (0 <? _); reflexivity.
    + unfold py_div. rewrite E. cbn. destruct (0 <? _); reflexivity.
  - unfold combiner_spec.combine, combiner_spec.clamp.
    destruct (combiner_spec.renormalize _) as [[a b] c].
    destruct (clamp01_range a) as [-> ->], (clamp01_range b) as [-> ->],
      (clamp01_range c) as [-> ->].
    reflexivity.
Qed.

(** * The stake sizer *)

Lemma capped_range (x : float) :
  let f := py_min (py_max 0 x) 0.05 in
  (0 <=? f) = true /\ (f <=? 0.05) = true.
Proof.
  unfold py_min, py_max. destruct (0 <? x) eqn:P.
  - destruct (0.05 <? x) eqn:C; [now split|]. split; [now apply ltb_leb|].
    apply nltb_leb; [assumption| now apply ltb_not_nan_r with 0 | reflexivity].
  - now split.
Qed.

(** [calculate_stake] never raises, and what it returns. *)
Lemma calculate_stake_eq (p o b k : float) :
  kelly.calculate_stake p o b k
  = if no_bet p o then Ok (0, 0)
    else Ok (py_round (kelly_capped p o k) 4, py_round (b * kelly_capped p o k) 2).
Proof.
  unfold kelly.calculate_stake, no_bet, kelly_capped.
  destruct ((p <=? 0) || (1 <=? p)); cbn [orb]; [reflexivity|].
  destruct (o <=? 1) eqn:O; [reflexivity|].
  unfold py_div. now rewrite (sub_one_nonzero o O).
Qed.

(** The fraction [calculate_stake] returns is between 0 and 0.05. *)
Lemma calculate_stake_fraction (p o b k f s : float) :
  kelly.calculate_stake p o b k = Ok (f, s) ->
  (0 <=? f) = true /\ (f <=? 0.05) = true.
Proof.
  rewrite calculate_stake_eq. destruct (no_bet p o).
  - intros [= <- <-]. now split.
  - intros [= <- <-]. destruct (capped_range ((p * (o - 1) - (1 - p)) / (o - 1) * k)).
    now apply py_round4_capped.
Qed.

(** C7, as the code has it.  [calculate_stake] returns [(0, 0)] when the
    probability is [<= 0] or [>= 1] or the odds are [<= 1], whatever the
    bankroll, and when the Kelly fraction times the multiplier is [<= 0],
    whatever the finite bankroll: the fraction is 0 and the stake compares
    equal to 0. *)
Theorem calculate_stake_zero (p o b k : float) :
  (p <=? 0) = true \/ (1 <=? p) = true \/ (o <=? 1) = true
  \/ (((p * (o - 1) - (1 - p)) / (o - 1) * k <=? 0) = true
      /\ is_finite b = true) ->
  exists s, kelly.calculate_stake p o b k = Ok (0, s) /\ (s =? 0) = true.
Proof.
  intros H. rewrite calculate_stake_eq.
  destruct (no_bet p o) eqn:N; [exists 0; now split|].
  unfold no_bet in N. apply orb_false_elim in N as [N N3].
  apply orb_false_elim in N as [N1 N2].
  destruct H as [H|[H|[H|[H F]]]]; try congruence.
  assert (K : kelly_capped p o k = 0).
  { unfold kelly_capped, py_max. now rewrite (leb_nltb _ _ H). }
  rewrite K. destruct (mul_zero_finite b F) as [Z1 Z2].
  exists (py_round (b * 0) 2). rewrite Z2. now split.
Qed.

Lemma calculate_stake_zero_witness :
  exists s, kelly.calculate_stake 0.3 2.0 1000 0.5 = Ok (0, s) /\ (s =? 0) = true.
Proof.
  apply calculate_stake_zero. right; right; right. split; reflexivity.
Defined.

(** C7 as stated fails for a bankroll that is not finite.  Probability 0.3
    at odds 2.0 passes the three guards, and the Kelly fraction scaled by
    0.5 is about -0.2; the function then returns the fraction 0 and the
    stake [round(bankroll * 0, 2)], which for the bankroll infinity (a
    value the request model's [gt=0] admits) is NaN, not 0. *)
Lemma calculate_stake_zero_counterexample :
  no_bet 0.3 2.0 = false
  /\ ((0.3 * (2.0 - 1) - (1 - 0.3)) / (2.0 - 1) * 0.5 <=? 0) = true
  /\ (0 <? infinity) = true
  /\ kelly.calculate_stake 0.3 2.0 infinity 0.5 = Ok (0, nan)
  /\ (nan =? 0) = false.
Proof. repeat split; vm_compute; reflexivity. Qed.

(** C8, as the code has it.  For a positive finite bankroll the function
    returns [(round(f, 4), round(bankroll * f, 2))], where [f] is 0 on the
    no-bet returns and the capped fraction otherwise; [f] and the returned
    fraction lie in [[0, 0.05]]. *)
Theorem calculate_stake_rounds (p o b k : float) :
  (0 <? b) = true -> is_finite b = true ->
  let f := if no_bet p o then 0 else kelly_capped p o k in
  kelly.calculate_stake p o b k = Ok (py_round f 4, py_round (b * f) 2)
  /\ (0 <=? f) = true /\ (f <=? 0.05) = true
  /\ (0 <=? py_round f 4) = true /\ (py_round f 4 <=? 0.05) = true.
Proof.
  intros P F f. subst f. rewrite calculate_stake_eq. destruct (no_bet p o).
  - rewrite (mul_zero_pos_finite b F P). now repeat split.
  - destruct (capped_range ((p * (o - 1) - (1 - p)) / (o - 1) * k)) as [L U].
    destruct (py_round4_capped _ L U). now repeat split.
Qed.

Lemma calculate_stake_rounds_witness :
  kelly.calculate_stake 0.523 2.1 1000 0.5
  = Ok (py_round (kelly_capped 0.523 2.1 0.5) 4,
        py_round (1000 * kelly_capped 0.523 2.1 0.5) 2)
  /\ (0 <=? kelly_capped 0.523 2.1 0.5) = true
  /\ (kelly_capped 0.523 2.1 0.5 <=? 0.05) = true
  /\ (0 <=? py_round (kelly_capped 0.523 2.1 0.5) 4) = true
  /\ (py_round (kelly_capped 0.523 2.1 0.5) 4 <=? 0.05) = true.
Proof.
  apply (calculate_stake_rounds 0.523 2.1 1000 0.5); reflexivity.
Defined.

(** C8 as stated fails on both counts, because the two results are rounded
    separately: with bankroll 1000 the stake 44.68 is not 1000 times the
    returned fraction 0.0447, and with bankroll 0.1 the stake 0.01 exceeds
    0.05 times the bankroll. *)
Lemma calculate_stake_rounding_counterexample :
  kelly.calculate_stake 0.523 2.1 1000 0.5 = Ok (0.0447, 44.68)
  /\ (44.68 =? 1000 * 0.0447) = false
  /\ kelly.calculate_stake 0.6 2.0 0.1 1 = Ok (0.05, 0.01)
  /\ (0.01 <=? 0.05 * 0.1) = false.
Proof. repeat split; vm_compute; reflexivity. Qed.

(** * Datasets the gate rejects *)

Lemma rejected_row_skipped
  (math_exp : float -> float) (float_pow : float -> Z -> float)
  (st : state) (r : row) :
  row_rejected r -> process_row math_exp float_pow st r = Ok st.
Proof.
  unfold process_row, row_body. intros [E|(x & E & G)]; rewrite E; cbn [bind].
  - reflexivity.
  - unfold passes_gate. now rewrite (fails_gate_validate _ _ _ _ _ G).
Qed.

Lemma rejected_rows_skipped
  (math_exp : float -> float) (float_pow : float -> Z -> float)
  (rows : list row) (st : state) :
  Forall row_rejected rows -> process_rows math_exp float_pow st rows = Ok st.
Proof.
  induction 1 as [|r rows R _ IH]; [reflexivity|].
  cbn [process_rows]. now rewrite (rejected_row_skipped _ _ st r R).
Qed.

(** Genuine decimal odds, all above 1.0, fail the gate. *)
Lemma decimal_odds_rejected (hg ag hw aw oh od oa : float) (out : Z) :
  (1 <? oh) = true ->
  row_rejected (parsed_row hg ag hw aw oh od oa out).
Proof.
  intros H. right. eexists. split; [reflexivity|]. left. now apply ltb_leb.
Qed.

(** C4, as the code has it.  On a dataset each of whose rows is rejected
    (a conversion raises [ValueError], or the row converts and fails the
    gate) [run_backtest] returns the report of a run without bets: the
    counters are zero, the final bankroll and the single entry of the
    equity curve are the initial bankroll rounded to two decimals (the
    initial bankroll itself when it is an amount in whole cents), and the
    ROI is 0 when the initial bankroll is finite.  A row that converts
    with genuine decimal odds, all above 1.0, is such a row. *)
Theorem rejected_dataset_report
  (math_exp : float -> float) (float_pow : float -> Z -> float) :
  (forall (rows : list row) (initial_bankroll : float),
      Forall row_rejected rows ->
      exists rep : report,
        run_backtest math_exp float_pow (Some rows) initial_bankroll = Ok (Some rep)
        /\ r_total_bets rep = 0%Z /\ r_winning_bets rep = 0%Z /\ r_losing_bets rep = 0%Z
        /\ r_equity_curve rep = [py_round initial_bankroll 2]
        /\ final_bankroll rep = py_round initial_bankroll 2
        /\ (py_round initial_bankroll 2 = initial_bankroll ->
            r_equity_curve rep = [initial_bankroll]
            /\ final_bankroll rep = initial_bankroll)
        /\ (is_finite initial_bankroll = true -> roi rep = 0))
  /\ (forall (hg ag hw aw oh od oa : float) (out : Z),
        (1 <? oh) = true -> (1 <? od) = true -> (1 <? oa) = true ->
        row_rejected (parsed_row hg ag hw aw oh od oa out)).
Proof.
  split.
  - intros rows initial_bankroll R. unfold run_backtest.
    rewrite (rejected_rows_skipped _ _ rows _ R). cbn [bind].
    eexists. split; [reflexivity|].
    unfold metrics, initial_state;
      cbn [bankroll equity_curve total_bets winning_bets map roi r_total_bets
           r_winning_bets r_losing_bets r_equity_curve final_bankroll].
    repeat split.
    + now rewrite H.
    + assumption.
    + intros F. destruct (0 <? initial_bankroll) eqn:P; [|reflexivity].
      now rewrite (roi_unchanged _ F P).
  - intros hg ag hw aw oh od oa out H _ _. now apply decimal_odds_rejected.
Qed.

Lemma rejected_dataset_report_witness :
  exists rep : report,
    run_backtest ref_exp ref_pow
      (Some [parsed_row 1.5 1.2 0.55 0.45 2.0 3.5 3.8 1;
             {| home_goals_avg := Parsed 1.5; away_goals_avg := Malformed;
                home_win_rate := Parsed 0.5; away_win_rate := Parsed 0.5;
                odds_home := Parsed 0.5; odds_draw := Parsed 0.5;
                odds_away := Parsed 0.5; outcome := Parsed 1%Z |};
             parsed_row 1.5 1.2 1.5 0.45 0.5 0.5 0.5 0])
      1000.005
    = Ok (Some rep)
    /\ r_total_bets rep = 0%Z /\ r_winning_bets rep = 0%Z /\ r_losing_bets rep = 0%Z
    /\ r_equity_curve rep = [py_round 1000.005 2]
    /\ final_bankroll rep = py_round 1000.005 2
    /\ (py_round 1000.005 2 = 1000.005 ->
        r_equity_curve rep = [1000.005] /\ final_bankroll rep = 1000.005)
    /\ (is_finite 1000.005 = true -> roi rep = 0).
Proof.
  apply (proj1 (rejected_dataset_report ref_exp ref_pow)).
  apply Forall_cons; [|apply Forall_cons; [|apply Forall_cons; [|apply Forall_nil]]].
  - now apply decimal_odds_rejected.
  - left. reflexivity.
  - right. eexists. split; [reflexivity|]. right; right; right; left. reflexivity.
Defined.

(** C4 as stated fails on three counts.  The report rounds money to two
    decimals: from the bankroll 1000.005 a dataset of one row with decimal
    odds returns the final bankroll 1000.0.  From the bankroll infinity the
    ROI is NaN.  And a row with decimal odds in which a value is missing
    does not let the run complete: the conversion of [None] raises
    [TypeError], which the row's handler does not catch. *)
Lemma rejected_dataset_counterexample :
  ((1 <? 2.0) = true /\ (1 <? 3.5) = true /\ (1 <? 3.8) = true)
  /\ (forall (math_exp : float -> float) (float_pow : float -> Z -> float),
        exists rep : report,
          run_backtest math_exp float_pow (Some [scenario_row]) 1000.005 = Ok (Some rep)
          /\ final_bankroll rep = 1000
          /\ (final_bankroll rep =? 1000.005) = false
          /\ r_equity_curve rep = [1000])
  /\ (forall (math_exp : float -> float) (float_pow : float -> Z -> float),
        exists rep : report,
          run_backtest math_exp float_pow (Some [scenario_row]) infinity = Ok (Some rep)
          /\ (roi rep =? 0) = false)
  /\ (forall (math_exp : float -> float) (float_pow : float -> Z -> float),
        run_backtest math_exp float_pow (Some [headerless_row]) 7000 = Raise TypeError).
Proof.
  split; [repeat split; reflexivity|].
  split; [intros; eexists; repeat split; vm_compute; reflexivity|].
  split; [intros; eexists; split; vm_compute; reflexivity|].
  intros; reflexivity.
Qed.


(** * The two call sites of the stake sizer *)

(** C5, as the code has it.  The [/predict] handler and the backtest's
    sizing call (multiplier 0.25) both go through [calculate_stake], whose
    cap is 5%: the fraction in a [/predict] response and the fraction the
    sizing call returns both lie in [[0, 0.05]]. *)
Theorem kelly_fraction_capped_at_five_percent :
  (forall (math_exp : float -> float) (float_pow : float -> Z -> float)
          (request : main.PredictionRequest) (response : main.PredictionResponse),
      main.predict math_exp float_pow request = Ok response ->
      (0 <=? main.r_kelly_fraction response) = true
      /\ (main.r_kelly_fraction response <=? 0.05) = true)
  /\ (forall p odds bankroll : float,
        exists kelly_frac stake,
          kelly.calculate_stake_dyn (VFloat p) odds bankroll 0.25
          = Ok (kelly_frac, stake)
          /\ (0 <=? kelly_frac) = true /\ (kelly_frac <=? 0.05) = true).
Proof.
  split.
  - intros math_exp float_pow request response. unfold main.predict.
    destruct (_ || _); [discriminate|].
    destruct (negb _); [discriminate|].
    destruct (negb _); [discriminate|].
    destruct (main.predictions _ _ _) as [[[[[s0 s1] s2] [[f0 f1] f2]] [[h0 h1] h2]]|];
      cbn [bind]; [|discriminate].
    destruct (main.best_bet _ _) as [[[out bp] bo]|]; cbn [bind]; [|discriminate].
    destruct (kelly.calculate_stake _ _ _ _) as [[f s]|] eqn:K; cbn [bind];
      [|discriminate].
    intros [= <-]. cbn [main.r_kelly_fraction].
    exact (calculate_stake_fraction _ _ _ _ _ _ K).
  - intros p odds bankroll. cbn [kelly.calculate_stake_dyn].
    destruct (kelly.calculate_stake p odds bankroll 0.25) as [[f s]|] eqn:K.
    + exists f, s. split; [reflexivity|]. exact (calculate_stake_fraction _ _ _ _ _ _ K).
    + rewrite calculate_stake_eq in K. destruct (no_bet p odds); discriminate.
Qed.

(** C5 as stated fails: on this valid request the handler sizes the home
    bet (hybrid probability about 0.615 at odds 3.0, full Kelly about 0.42)
    and answers with the fraction 0.05 and the stake 50, where a cap at 25%
    (the statements after the [return]) gives 0.25 and 250. *)
Lemma predict_cap_counterexample :
  main.request_valid cap_request = true
  /\ exists (response : main.PredictionResponse) (p_stat p_fuzzy p_hybrid : triple)
            (best_probability : float),
      main.predict ref_exp ref_pow cap_request = Ok response
      /\ main.r_kelly_fraction response = 0.05
      /\ main.recommended_stake response = 50
      /\ main.predictions ref_exp ref_pow cap_request = Ok (p_stat, p_fuzzy, p_hybrid)
      /\ main.best_bet cap_request p_hybrid = Ok (main.home, best_probability, 3.0)
      /\ kelly.calculate_stake_after_return best_probability 3.0 1000 1
         = Ok (0.25, 250)
      /\ (0.25 <? ((best_probability * (3.0 - 1) - (1 - best_probability)) / (3.0 - 1)) * 1)
         = true.
Proof.
  split; [reflexivity|].
  do 5 eexists.
  split; [vm_compute; reflexivity|].
  split; [reflexivity|].
  split; [reflexivity|].
  split; [vm_compute; reflexivity|].
  split; [vm_compute; reflexivity|].
  split; vm_compute; reflexivity.
Qed.

(** * What the backtest loop never does *)

Section BacktestOutcomes.

Variable math_exp : float -> float.
Variable float_pow : float -> Z -> float.

(** A pass of the loop that does not raise leaves the state as it was: the
    edge check, the only way to the bet, never returns. *)
Lemma row_body_ok_unchanged (st st' : state) (r : row) :
  row_body math_exp float_pow st r = Ok st' -> st' = st.
Proof.
  unfold row_body.
  destruct (parse_row r) as [x|]; cbn [bind]; [|discriminate].
  destruct (passes_gate x); cbn [negb]; [|now intros [= <-]].
  destruct (predict_fixture math_exp float_pow x) as [p|]; cbn [bind]; [|discriminate].
  intros H. now apply edge_check_never_ok in H.
Qed.

Lemma process_row_ok_unchanged (st st' : state) (r : row) :
  process_row math_exp float_pow st r = Ok st' -> st' = st.
Proof.
  unfold process_row.
  destruct (row_body math_exp float_pow st r) as [s|[]] eqn:E; try discriminate.
  - intros [= <-]. now apply row_body_ok_unchanged with r.
  - now intros [= <-].
  - now intros [= <-].
Qed.

Lemma process_rows_ok_unchanged (rows : list row) (st st' : state) :
  process_rows math_exp float_pow st rows = Ok st' -> st' = st.
Proof.
  revert st. induction rows as [|r rows IH]; intros st.
  - now intros [= <-].
  - change (process_rows math_exp float_pow st (r :: rows))
      with (bind (process_row math_exp float_pow st r)
                 (fun s => process_rows math_exp float_pow s rows)).
    destruct (process_row math_exp float_pow st r) as [s|] eqn:E; cbn [bind];
      [|discriminate].
    intros H. apply IH in H. apply process_row_ok_unchanged in E. congruence.
Qed.

Lemma run_backtest_ok (data : option (list row)) (initial_bankroll : float) (rep : report) :
  run_backtest math_exp float_pow data initial_bankroll = Ok (Some rep) ->
  rep = metrics initial_bankroll (initial_state initial_bankroll).
Proof.
  unfold run_backtest. destruct data as [rows|]; [|discriminate].
  destruct (process_rows math_exp float_pow (initial_state initial_bankroll) rows)
    as [st|] eqn:E; cbn [bind]; [|discriminate].
  apply process_rows_ok_unchanged in E. subst st. now intros [= <-].
Qed.

(** X1.  A report [run_backtest] returns is the report of a run without a
    bet, whatever the rows were: no bet counted, won or lost, an equity
    curve of one point, the rounded initial bankroll, which is also the
    final bankroll. *)
Theorem run_backtest_never_bets
  (data : option (list row)) (initial_bankroll : float) (rep : report) :
  run_backtest math_exp float_pow data initial_bankroll = Ok (Some rep) ->
  r_total_bets rep = 0%Z /\ r_winning_bets rep = 0%Z /\ r_losing_bets rep = 0%Z
  /\ r_equity_curve rep = [py_round initial_bankroll 2]
  /\ final_bankroll rep = py_round initial_bankroll 2.
Proof.
  intros H. apply run_backtest_ok in H. subst rep. now repeat split.
Qed.

End BacktestOutcomes.

Lemma run_backtest_never_bets_witness :
  r_total_bets (metrics 1000 (initial_state 1000)) = 0%Z
  /\ r_winning_bets (metrics 1000 (initial_state 1000)) = 0%Z
  /\ r_losing_bets (metrics 1000 (initial_state 1000)) = 0%Z
  /\ r_equity_curve (metrics 1000 (initial_state 1000)) = [py_round 1000 2]
  /\ final_bankroll (metrics 1000 (initial_state 1000)) = py_round 1000 2.
Proof.
  apply (run_backtest_never_bets ref_exp ref_pow (Some [scenario_row]) 1000).
  vm_compute. reflexivity.
Defined.

(** * The fuzzy engine *)

Lemma clamp01_in_unit (p : float) : in_unit (clamp01 p) = true.
Proof. unfold in_unit. now destruct (clamp01_range p) as [-> ->]. Qed.

(** The nine membership functions of [fuzzify] have literal corners
    [a < b < c], for which neither quotient can raise. *)
Ltac triangular_total :=
  intros x; unfold fuzzy_engine.triangular_membership;
  destruct (_ || _); [eexists; reflexivity|];
  destruct (_ && _); cbn; eexists; reflexivity.

Lemma triangular_low_goals x :
  exists v, fuzzy_engine.triangular_membership x 0.0 0.5 1.5 = Ok v.
Proof. revert x. triangular_total. Qed.

Lemma triangular_med_goals x :
  exists v, fuzzy_engine.triangular_membership x 1.0 1.5 2.5 = Ok v.
Proof. revert x. triangular_total. Qed.

Lemma triangular_high_goals x :
  exists v, fuzzy_engine.triangular_membership x 2.0 3.0 5.0 = Ok v.
Proof. revert x. triangular_total. Qed.

Lemma triangular_low_prob x :
  exists v, fuzzy_engine.triangular_membership x 0.0 0.25 0.45 = Ok v.
Proof. revert x. triangular_total. Qed.

Lemma triangular_med_prob x :
  exists v, fuzzy_engine.triangular_membership x 0.35 0.50 0.65 = Ok v.
Proof. revert x. triangular_total. Qed.

Lemma triangular_high_prob x :
  exists v, fuzzy_engine.triangular_membership x 0.55 0.75 1.0 = Ok v.
Proof. revert x. triangular_total. Qed.

(** The weighted average guards its own division. *)
Lemma defuzzify_total (rule_fire consequents : fuzzy_engine.by_rule) :
  exists v, fuzzy_engine.defuzzify rule_fire consequents = Ok v.
Proof.
  unfold fuzzy_engine.defuzzify, py_div.
  destruct (py_sum (fuzzy_engine.values rule_fire) =? 0); eexists; reflexivity.
Qed.

Lemma fuzzify_cases (hg ag oh od oa : float) :
  if fuzzy_divides_by_zero oh od oa
  then fuzzy_engine.fuzzify hg ag oh od oa = Raise ZeroDivisionError
  else exists fs, fuzzy_engine.fuzzify hg ag oh od oa = Ok fs.
Proof.
  unfold fuzzy_divides_by_zero, fuzzy_engine.fuzzify, py_div.
  destruct (oh =? 0); cbn [orb bind]; [reflexivity|].
  destruct (od =? 0); cbn [orb bind]; [reflexivity|].
  destruct (oa =? 0); cbn [orb bind]; [reflexivity|].
  destruct (1 / oh + 1 / od + 1 / oa =? 0); cbn [bind]; [reflexivity|].
  destruct (triangular_low_goals hg) as [? ->], (triangular_med_goals hg) as [? ->],
    (triangular_high_goals hg) as [? ->]; cbn [bind].
  destruct (triangular_low_goals ag) as [? ->], (triangular_med_goals ag) as [? ->],
    (triangular_high_goals ag) as [? ->]; cbn [bind].
  destruct (triangular_low_prob (1 / oh / (1 / oh + 1 / od + 1 / oa))) as [? ->],
    (triangular_med_prob (1 / oh / (1 / oh + 1 / od + 1 / oa))) as [? ->],
    (triangular_high_prob (1 / oh / (1 / oh + 1 / od + 1 / oa))) as [? ->]; cbn [bind].
  eexists; reflexivity.
Qed.

Lemma fuzzy_outcomes (hg ag oh od oa : float) :
  if fuzzy_divides_by_zero oh od oa
  then fuzzy_engine.calculate_probability hg ag oh od oa = Raise ZeroDivisionError
  else exists p_home p_draw p_away,
      fuzzy_engine.calculate_probability hg ag oh od oa = Ok (p_home, p_draw, p_away)
      /\ in_unit p_home = true /\ in_unit p_draw = true /\ in_unit p_away = true.
Proof.
  unfold fuzzy_engine.calculate_probability.
  pose proof (fuzzify_cases hg ag oh od oa) as F.
  destruct (fuzzy_divides_by_zero oh od oa) eqn:Z; [now rewrite F|].
  destruct F as [fs ->]; cbn [bind].
  destruct (fuzzy_engine.apply_rules fs) as [rule_fire consequents].
  destruct (defuzzify_total rule_fire consequents) as [p ->]; cbn [bind].
  unfold fuzzy_divides_by_zero in Z.
  apply orb_false_elim in Z as [Z Z4]. apply orb_false_elim in Z as [Z Z3].
  apply orb_false_elim in Z as [Z1 Z2].
  unfold py_div. rewrite Z1, Z2, Z3; cbn [bind]. rewrite Z4; cbn [bind].
  destruct (0 <? _); do 3 eexists; (split; [reflexivity|]);
    repeat split; apply clamp01_in_unit.
Qed.

(** X2.  The fuzzy engine raises [ZeroDivisionError] exactly when one of
    the three odds, or the sum of their reciprocals, is zero, and raises
    nothing else; on every other input, whatever the goal averages (NaN
    and infinities included), it returns, and what it returns is three
    numbers in [[0, 1]]. *)
Theorem fuzzy_calculate_probability_cases (hg ag oh od oa : float) :
  (fuzzy_engine.calculate_probability hg ag oh od oa = Raise ZeroDivisionError
   <-> fuzzy_divides_by_zero oh od oa = true)
  /\ (forall e : exn,
        fuzzy_engine.calculate_probability hg ag oh od oa = Raise e ->
        e = ZeroDivisionError)
  /\ ((exists p, fuzzy_engine.calculate_probability hg ag oh od oa = Ok p)
      <-> fuzzy_divides_by_zero oh od oa = false)
  /\ (forall p_home p_draw p_away : float,
        fuzzy_engine.calculate_probability hg ag oh od oa = Ok (p_home, p_draw, p_away) ->
        in_unit p_home = true /\ in_unit p_draw = true /\ in_unit p_away = true).
Proof.
  pose proof (fuzzy_outcomes hg ag oh od oa) as F.
  destruct (fuzzy_divides_by_zero oh od oa).
  - rewrite F. repeat split; try discriminate.
    + now intros e [= <-].
    + now intros [p H].
  - destruct F as (h & d & a & -> & U). repeat split; try discriminate.
    + exists (h, d, a). reflexivity.
    + now injection H as <- <- <-.
    + now injection H as <- <- <-.
    + now injection H as <- <- <-.
Qed.

(** ** Positive odds *)

Lemma ltb_zero_positive (x : float) : (0 <? x) = SF_positive (Prim2SF x).
Proof.
  rewrite ltb_spec. change (Prim2SF 0) with (S754_zero false).
  now destruct (Prim2SF x) as [[]|[]| |[] m e].
Qed.

Section RoundingPositive.
Local Open Scope Z_scope.

Lemma binary_round_aux_positive (m e : Z) (l : location) :
  emin <= e -> 0 < m ->
  SF_positive (binary_round_aux prec emax false m e l) = true.
Proof.
  intros He Hm. pose proof (binary_round_aux_nonzero false m e l He Hm) as N.
  revert N. unfold binary_round_aux.
  destruct (shr_fexp prec emax m e l) as [mrs' e'].
  destruct (shr_fexp prec emax _ e' loc_Exact) as [mrs'' e''].
  destruct (shr_m mrs''); try discriminate.
  now destruct (_ <=? _).
Qed.

Lemma binary_normalize_positive (p : positive) (e : Z) (sz : bool) :
  emin <= e -> SF_positive (binary_normalize prec emax (Z.pos p) e sz) = true.
Proof.
  intros He. unfold binary_normalize, binary_round, shl_align.
  assert (F : emin <= fexp prec emax (Z.pos (digits2_pos p) + e))
    by (unfold fexp; lia).
  destruct (fexp prec emax (Z.pos (digits2_pos p) + e) - e);
    apply binary_round_aux_positive; lia.
Qed.

End RoundingPositive.

Lemma add_positive (x y : float) :
  (0 <? x) = true -> (0 <? y) = true -> (0 <? x + y) = true.
Proof.
  rewrite !ltb_zero_positive, add_spec.
  pose proof (Prim2SF_valid x) as Vx. pose proof (Prim2SF_valid y) as Vy.
  destruct (Prim2SF x) as [[]|[]| |[] mx ex], (Prim2SF y) as [[]|[]| |[] my ey];
    try discriminate; try reflexivity.
  intros _ _. apply valid_finite in Vx as (Vx & _), Vy as (Vy & _).
  unfold SF64add, SFadd, cond_Zopp.
  apply binary_normalize_positive. lia.
Qed.

(** The reciprocal of a positive finite float is positive: it may be
    subnormal, or infinite, but not zero. *)
Lemma inv_positive (o : float) :
  (0 <? o) = true -> is_finite o = true -> (0 <? 1 / o) = true.
Proof.
  intros P F. rewrite ltb_zero_positive in *. rewrite div_spec.
  pose proof (Prim2SF_valid o) as V.
  change (Prim2SF 1) with (S754_finite false 4503599627370496 (-52)).
  destruct (is_finite_cases o F) as [[s E]|(s & m & e & E)]; rewrite E in *;
    [destruct s; discriminate|].
  destruct s; [discriminate|].
  pose proof V as V'. apply valid_finite in V as (V1 & V2 & V3).
  assert (V4 : (e <= 971)%Z).
  { cbn [valid_binary] in V'. unfold bounded in V'. apply andb_prop in V' as [_ V'].
    apply Z.leb_le in V'. unfold emax, prec in V'. lia. }
  unfold SF64div, SFdiv, SFdiv_core_binary. cbn [xorb].
  change (Zdigits2 4503599627370496) with 53%Z. cbn [Zdigits2].
  pose proof (digits2_pos_bounds m) as [D1 D2].
  set (d := Z.pos (digits2_pos m)) in *.
  assert (Dd : (1 <= d <= 53)%Z).
  { split; [subst d; lia|].
    destruct (Z.le_gt_cases d 53) as [L|G]; [assumption|].
    assert (2 ^ 53 <= 2 ^ (d - 1))%Z by (apply Z.pow_le_mono_r; lia). lia. }
  set (e' := Z.min (fexp prec emax (53 + -52 - (d + e))) (-52 - e)).
  assert (E' : (emin <= e' /\ 1 <= -52 - e - e')%Z).
  { subst e'. unfold fexp, SpecFloat.emin, prec, emax in *. lia. }
  destruct E' as [E1 E2].
  destruct (-52 - e - e')%Z as [|s|s] eqn:S; try lia.
  rewrite Z.shiftl_mul_pow2 by lia.
  assert (M : (Z.pos m <= 4503599627370496 * 2 ^ Z.pos s)%Z).
  { assert (2 ^ 1 <= 2 ^ Z.pos s)%Z by (apply Z.pow_le_mono_r; lia).
    change (2 ^ 1)%Z with 2%Z in *. change (2 ^ 53)%Z with 9007199254740992%Z in V2. lia. }
  pose proof (Z.div_str_pos _ _ (conj (Pos2Z.is_pos m) M)) as Q.
  unfold Z.div in Q.
  destruct (Z.div_eucl (4503599627370496 * 2 ^ Z.pos s) (Z.pos m)) as [q r].
  cbn [fst] in Q.
  now apply binary_round_aux_positive.
Qed.

Lemma gt_one_positive (o : float) : (1 <? o) = true -> (0 <? o) = true.
Proof.
  rewrite ltb_zero_positive, ltb_spec.
  change (Prim2SF 1) with (S754_finite false 4503599627370496 (-52)).
  now destruct (Prim2SF o) as [[]|[]| |[] m e].
Qed.

(** With three positive finite odds no divisor is zero: the reciprocals
    are positive, and so is their sum. *)
Lemma positive_odds_divide (oh od oa : float) :
  (0 <? oh) = true -> (0 <? od) = true -> (0 <? oa) = true ->
  is_finite oh = true -> is_finite od = true -> is_finite oa = true ->
  fuzzy_divides_by_zero oh od oa = false.
Proof.
  intros Ph Pd Pa Fh Fd Fa. unfold fuzzy_divides_by_zero.
  rewrite (ltb_neq _ _ Ph), (ltb_neq _ _ Pd), (ltb_neq _ _ Pa). cbn [orb].
  apply ltb_neq, add_positive; [apply add_positive|]; now apply inv_positive.
Qed.

(** X3.  On positive finite odds the fuzzy engine never raises: however
    large or small the odds, their reciprocals and the sum of them are
    nonzero doubles, and the engine returns three numbers in [[0, 1]]. *)
Theorem fuzzy_positive_odds (hg ag oh od oa : float) :
  (0 <? oh) = true -> (0 <? od) = true -> (0 <? oa) = true ->
  is_finite oh = true -> is_finite od = true -> is_finite oa = true ->
  exists p_home p_draw p_away,
    fuzzy_engine.calculate_probability hg ag oh od oa = Ok (p_home, p_draw, p_away)
    /\ in_unit p_home = true /\ in_unit p_draw = true /\ in_unit p_away = true.
Proof.
  intros Ph Pd Pa Fh Fd Fa.
  pose proof (fuzzy_outcomes hg ag oh od oa) as F.
  now rewrite (positive_odds_divide oh od oa Ph Pd Pa Fh Fd Fa) in F.
Qed.

Lemma fuzzy_positive_odds_witness :
  exists p_home p_draw p_away,
    fuzzy_engine.calculate_probability 1.5 1.2 2.0 3.5 3.8 = Ok (p_home, p_draw, p_away)
    /\ in_unit p_home = true /\ in_unit p_draw = true /\ in_unit p_away = true.
Proof.
  apply (fuzzy_positive_odds 1.5 1.2 2.0 3.5 3.8); reflexivity.
Defined.

(** ** The rule base *)

Lemma ltb_irrefl (a : float) : (a <? a) = false.
Proof.
  rewrite ltb_spec. unfold SFltb.
  destruct (Prim2SF a) as [[]|[]| |[] m e]; cbn; try reflexivity.
  all: now rewrite Z.compare_refl, Pos.compare_cont_refl.
Qed.

Lemma ltb_asym (a b : float) : (a <? b) = true -> (b <? a) = false.
Proof. intros H. apply leb_nltb. now apply ltb_leb. Qed.

(** X4.  Rule 3 fires with the membership of the home goals in "medium",
    whatever the implied probability: its second term,
    [min(prob["med"], home_goals["med"])], never exceeds the first. *)
Theorem apply_rules_medium (fs : fuzzy_engine.fuzzy_sets) :
  fuzzy_engine.medium (fst (fuzzy_engine.apply_rules fs))
  = fuzzy_engine.med (fuzzy_engine.home_goals fs).
Proof.
  unfold fuzzy_engine.apply_rules; cbn [fst fuzzy_engine.medium].
  unfold py_max, py_min.
  destruct (fuzzy_engine.med (fuzzy_engine.home_goals fs)
            <? fuzzy_engine.med (fuzzy_engine.prob fs)) eqn:E.
  - now rewrite ltb_irrefl.
  - now rewrite E.
Qed.

(** * The order of the floats *)

Lemma SFcompare_key (x y : spec_float) :
  SFcompare x y
  = if SF_is_nan x || SF_is_nan y then None else Some (lex3 (SF_key x) (SF_key y)).
Proof.
  destruct x as [[]|[]| |[] m e], y as [[]|[]| |[] m' e']; try reflexivity.
  cbn. rewrite Z.compare_opp, (Z.compare_antisym e e').
  destruct (e ?= e')%Z; reflexivity.
Qed.

Lemma lex3_lt_trans (a b c : Z * Z * Z) :
  lex3 a b = Lt -> lex3 b c = Lt -> lex3 a c = Lt.
Proof.
  destruct a as [[a1 a2] a3], b as [[b1 b2] b3], c as [[c1 c2] c3]. unfold lex3.
  destruct (Z.compare_spec a1 b1), (Z.compare_spec a2 b2), (Z.compare_spec a3 b3);
    try discriminate; intros _;
  destruct (Z.compare_spec b1 c1), (Z.compare_spec b2 c2), (Z.compare_spec b3 c3);
    try discriminate; intros _;
  destruct (Z.compare_spec a1 c1), (Z.compare_spec a2 c2), (Z.compare_spec a3 c3);
    try reflexivity; lia.
Qed.

Lemma lex3_le_lt_trans (a b c : Z * Z * Z) :
  lex3 a b <> Gt -> lex3 b c = Lt -> lex3 a c = Lt.
Proof.
  destruct a as [[a1 a2] a3], b as [[b1 b2] b3], c as [[c1 c2] c3]. unfold lex3.
  destruct (Z.compare_spec a1 b1), (Z.compare_spec a2 b2), (Z.compare_spec a3 b3);
    try congruence; intros _;
  destruct (Z.compare_spec b1 c1), (Z.compare_spec b2 c2), (Z.compare_spec b3 c3);
    try discriminate; intros _;
  destruct (Z.compare_spec a1 c1), (Z.compare_spec a2 c2), (Z.compare_spec a3 c3);
    try reflexivity; lia.
Qed.

Lemma ltb_trans (a b c : float) :
  (a <? b) = true -> (b <? c) = true -> (a <? c) = true.
Proof.
  rewrite !ltb_spec. unfold SFltb. rewrite !SFcompare_key.
  destruct (SF_is_nan (Prim2SF a)), (SF_is_nan (Prim2SF b)), (SF_is_nan (Prim2SF c));
    cbn [orb]; try discriminate.
  destruct (lex3 (SF_key (Prim2SF a)) (SF_key (Prim2SF b))) eqn:E1; try discriminate.
  destruct (lex3 (SF_key (Prim2SF b)) (SF_key (Prim2SF c))) eqn:E2; try discriminate.
  now rewrite (lex3_lt_trans _ _ _ E1 E2).
Qed.

Lemma leb_ltb_trans (a b c : float) :
  (a <=? b) = true -> (b <? c) = true -> (a <? c) = true.
Proof.
  rewrite !ltb_spec, leb_spec. unfold SFltb, SFleb. rewrite !SFcompare_key.
  destruct (SF_is_nan (Prim2SF a)), (SF_is_nan (Prim2SF b)), (SF_is_nan (Prim2SF c));
    cbn [orb]; try discriminate.
  destruct (lex3 (SF_key (Prim2SF b)) (SF_key (Prim2SF c))) eqn:E2; try discriminate.
  destruct (lex3 (SF_key (Prim2SF a)) (SF_key (Prim2SF b))) eqn:E1; try discriminate;
    intros _ _;
    rewrite (lex3_le_lt_trans (SF_key (Prim2SF a)) _ _ ltac:(rewrite E1; discriminate) E2);
    reflexivity.
Qed.

(** * The statistical engine *)

(** The clamp [max(lo, min(x, hi))] applied twice is the clamp. *)
Lemma clamp_saturates (lo hi x : float) :
  (lo <? hi) = true ->
  py_max lo (py_min (py_max lo (py_min x hi)) hi) = py_max lo (py_min x hi).
Proof.
  intros L. unfold py_max, py_min.
  destruct (hi <? x) eqn:A.
  - rewrite L, ltb_irrefl. now rewrite L.
  - destruct (lo <? x) eqn:B.
    + now rewrite A, B.
    + now rewrite (ltb_asym _ _ L), ltb_irrefl.
Qed.

(** The clamp of a goal average is at least 0.1. *)
Lemma goal_clamp_lower (x : float) : (0.1 <=? py_max 0.1 (py_min x 5.0)) = true.
Proof.
  unfold py_max, py_min. destruct (5.0 <? x).
  - reflexivity.
  - destruct (0.1 <? x) eqn:A; [now apply ltb_leb | reflexivity].
Qed.

Lemma above_tenth_not_below_zero (c : float) : (0.1 <=? c) = true -> (c <=? 0) = false.
Proof.
  rewrite !leb_spec.
  change (Prim2SF 0.1) with (S754_finite false 7205759403792794 (-56)).
  change (Prim2SF 0) with (S754_zero false).
  now destruct (Prim2SF c) as [[]|[]| |[] m e].
Qed.

Lemma above_tenth_mul_positive (c : float) :
  (0.1 <=? c) = true -> (c * 1.15 <=? 0) = false.
Proof.
  intros H.
  assert (P : (0 <? c * 1.15) = true).
  { rewrite ltb_zero_positive, mul_spec. rewrite leb_spec in H.
    pose proof (Prim2SF_valid c) as V.
    change (Prim2SF 0.1) with (S754_finite false 7205759403792794 (-56)) in H.
    change (Prim2SF 1.15) with (S754_finite false 5179139571476070 (-52)).
    destruct (Prim2SF c) as [[]|[]| |[] m e]; try discriminate; try reflexivity.
    unfold SF64mul, SFmul. cbn [xorb].
    apply binary_round_aux_positive; [|lia].
    assert (E : (-56 <= e)%Z).
    { unfold SFleb, SFcompare in H.
      destruct (-56 ?= e)%Z eqn:C; [| |discriminate].
      - apply Z.compare_eq in C. lia.
      - change (-56 < e)%Z in C. lia. }
    unfold SpecFloat.emin, emax, prec. lia. }
  destruct (c * 1.15 <=? 0) eqn:L; [|reflexivity].
  apply leb_nltb in L. congruence.
Qed.

Section StatEngine.

Variable math_exp : float -> float.
Variable float_pow : float -> Z -> float.

Lemma stat_in_unit (hg ag hw aw : float) :
  let '(h, d, a) := stat_engine.calculate_probability math_exp float_pow hg ag hw aw in
  in_unit h = true /\ in_unit d = true /\ in_unit a = true.
Proof.
  unfold stat_engine.calculate_probability.
  destruct (stat_engine.poisson_outcomes _ _ _ _) as [[ph pd] pa].
  destruct (0 <? _); repeat split; apply clamp01_in_unit.
Qed.

(** X5.  The statistical engine returns three numbers in [[0, 1]], none of
    them NaN, on every input and with every C library: whatever [math.exp]
    and [**] give, the final [max(0.0, min(1.0, p))] brings it into the
    interval. *)
Theorem stat_probabilities_in_unit (hg ag hw aw : float) :
  in_unit (fst (fst (stat_engine.calculate_probability math_exp float_pow hg ag hw aw)))
  = true
  /\ in_unit (snd (fst (stat_engine.calculate_probability math_exp float_pow hg ag hw aw)))
     = true
  /\ in_unit (snd (stat_engine.calculate_probability math_exp float_pow hg ag hw aw))
     = true.
Proof.
  pose proof (stat_in_unit hg ag hw aw) as S.
  now destruct (stat_engine.calculate_probability _ _ _ _ _ _) as [[h d] a].
Qed.

(** X6.  The statistical engine sees its inputs only through their clamps
    (goal averages to [[0.1, 5.0]], win rates to [[0.01, 0.99]]): it gives
    on any input what it gives on the clamped input; every home goal
    average above 5.0 gives the result of 5.0, and every one not above 0.1
    (negative numbers and NaN included) the result of 0.1. *)
Theorem stat_inputs_saturate (hg ag hw aw : float) :
  stat_engine.calculate_probability math_exp float_pow hg ag hw aw
  = stat_engine.calculate_probability math_exp float_pow
      (py_max 0.1 (py_min hg 5.0)) (py_max 0.1 (py_min ag 5.0))
      (py_max 0.01 (py_min hw 0.99)) (py_max 0.01 (py_min aw 0.99))
  /\ ((5.0 <? hg) = true ->
      stat_engine.calculate_probability math_exp float_pow hg ag hw aw
      = stat_engine.calculate_probability math_exp float_pow 5.0 ag hw aw)
  /\ ((0.1 <? hg) = false ->
      stat_engine.calculate_probability math_exp float_pow hg ag hw aw
      = stat_engine.calculate_probability math_exp float_pow 0.1 ag hw aw).
Proof.
  assert (G : forall x y,
             py_max 0.1 (py_min x 5.0) = py_max 0.1 (py_min y 5.0) ->
             stat_engine.calculate_probability math_exp float_pow x ag hw aw
             = stat_engine.calculate_probability math_exp float_pow y ag hw aw).
  { intros x y E. unfold stat_engine.calculate_probability. now rewrite E. }
  split; [|split].
  - unfold stat_engine.calculate_probability.
    now rewrite !clamp_saturates by reflexivity.
  - intros H. apply G. unfold py_min at 1. rewrite H. reflexivity.
  - intros H. apply G. unfold py_min at 1, py_max at 1.
    destruct (5.0 <? hg) eqn:A.
    + assert (B : (0.1 <? hg) = true) by (now apply ltb_trans with 5.0). congruence.
    + rewrite H. reflexivity.
Qed.

(** X7.  On the calls [calculate_probability] makes, the guard
    [lambda_ <= 0] of [_poisson_probability] never fires: the clamped goal
    averages are at least 0.1, and the home average times the home
    advantage 1.15 is a positive double, so every Poisson term is
    [exp(-lambda) * lambda ** k / k!]. *)
Theorem poisson_guard_never_fires (home_goals_avg away_goals_avg : float) (k : Z) :
  let adj_home_goals :=
    py_max 0.1 (py_min home_goals_avg 5.0) * stat_engine._calculate_home_advantage in
  let away_goals := py_max 0.1 (py_min away_goals_avg 5.0) in
  stat_engine._poisson_probability math_exp float_pow k adj_home_goals
  = (math_exp (- adj_home_goals) * float_pow adj_home_goals k)
    / stat_engine.float_of_int (stat_engine.factorial k)
  /\ stat_engine._poisson_probability math_exp float_pow k away_goals
     = (math_exp (- away_goals) * float_pow away_goals k)
       / stat_engine.float_of_int (stat_engine.factorial k).
Proof.
  cbv zeta. unfold stat_engine._poisson_probability, stat_engine._calculate_home_advantage.
  rewrite (above_tenth_mul_positive _ (goal_clamp_lower home_goals_avg)).
  rewrite (above_tenth_not_below_zero _ (goal_clamp_lower away_goals_avg)).
  split; reflexivity.
Qed.

End StatEngine.

(** * The stake sizer on every input *)

(** X8.  [calculate_stake] never raises, for any probability, odds,
    bankroll and multiplier: its one division, by [odds - 1], is reached
    only with [odds > 1], where the difference is a nonzero double; and the
    fraction it returns lies in [[0, 0.05]]. *)
Theorem calculate_stake_never_raises (p o b k : float) :
  exists f s, kelly.calculate_stake p o b k = Ok (f, s)
              /\ (0 <=? f) = true /\ (f <=? 0.05) = true.
Proof.
  pose proof (calculate_stake_fraction p o b k) as K.
  rewrite calculate_stake_eq in *.
  destruct (no_bet p o); do 2 eexists; (split; [reflexivity|]); exact (K _ _ eq_refl).
Qed.

Lemma nan_spec (x : float) : (x =? x) = false -> Prim2SF x = S754_nan.
Proof.
  rewrite eqb_spec. unfold SFeqb.
  destruct (Prim2SF x) as [[]|[]| |[] m e]; cbn; try discriminate; try reflexivity.
  all: now rewrite Z.compare_refl, Pos.compare_cont_refl.
Qed.

Lemma nan_ltb_r (a x : float) : Prim2SF x = S754_nan -> (a <? x) = false.
Proof. intros E. rewrite ltb_spec, E. unfold SFltb. now destruct (Prim2SF a). Qed.

Lemma nan_mul_l (x y : float) : Prim2SF x = S754_nan -> Prim2SF (x * y) = S754_nan.
Proof. intros E. now rewrite mul_spec, E. Qed.

Lemma nan_sub_l (x y : float) : Prim2SF x = S754_nan -> Prim2SF (x - y) = S754_nan.
Proof. intros E. now rewrite sub_spec, E. Qed.

Lemma nan_div_l (x y : float) : Prim2SF x = S754_nan -> Prim2SF (x / y) = S754_nan.
Proof. intros E. now rewrite div_spec, E. Qed.

Lemma nan_div_r (x y : float) : Prim2SF y = S754_nan -> Prim2SF (x / y) = S754_nan.
Proof. intros E. rewrite div_spec, E. now destruct (Prim2SF x). Qed.

(** X9.  A NaN probability or NaN odds pass the three guards (every
    comparison with NaN is false), and the fraction returned is 0 all the
    same: the Kelly value is NaN, and [max(0, NaN)] is 0. *)
Theorem calculate_stake_nan (p o b k : float) :
  (p =? p) = false \/ (o =? o) = false ->
  exists s, kelly.calculate_stake p o b k = Ok (0, s).
Proof.
  intros H. rewrite calculate_stake_eq.
  destruct (no_bet p o); [now exists 0|].
  assert (N : Prim2SF ((p * (o - 1) - (1 - p)) / (o - 1) * k) = S754_nan).
  { apply nan_mul_l. destruct H as [H|H]; apply nan_spec in H.
    - apply nan_div_l, nan_sub_l, nan_mul_l, H.
    - apply nan_div_r, nan_sub_l, H. }
  unfold kelly_capped, py_max. rewrite (nan_ltb_r 0 _ N).
  eexists. reflexivity.
Qed.

Lemma calculate_stake_nan_witness :
  exists s, kelly.calculate_stake nan 2.0 1000 0.5 = Ok (0, s).
Proof.
  apply (calculate_stake_nan nan 2.0 1000 0.5). left. reflexivity.
Defined.

(** * Every exit of the backtest loop *)

Lemma convert_raises {A : Type} (f : field A) (e : exn) :
  convert f = Raise e ->
  (e = TypeError /\ is_absent f = true) \/ (e = ValueError /\ is_malformed f = true).
Proof. destruct f; cbn; intros [= <-]; auto. Qed.

Lemma parse_row_raises (r : row) (e : exn) :
  parse_row r = Raise e -> e = TypeError \/ e = ValueError.
Proof.
  unfold parse_row.
  repeat match goal with
  | |- bind (convert ?f) _ = _ -> _ =>
      destruct (convert f) eqn:?; cbn [bind];
      [| intros [= <-];
         match goal with H : convert _ = Raise _ |- _ =>
           apply convert_raises in H as [[-> _]|[-> _]]; auto end ]
  end.
  discriminate.
Qed.

(** A row none of whose fields is malformed and one of whose fields is
    absent does not convert: [float(None)] raises [TypeError]. *)
Lemma parse_row_absent (r : row) :
  row_has_malformed r = false -> row_has_absent r = true ->
  parse_row r = Raise TypeError.
Proof.
  unfold row_has_malformed, row_has_absent, parse_row.
  repeat match goal with
  | |- context [convert ?f] =>
      destruct f; cbn; [intros; reflexivity | discriminate | ]
  end.
  intros; discriminate.
Qed.

Lemma finite_below_one (o : float) :
  (0 <? o) = true -> (1 <=? o) = false -> is_finite o = true.
Proof.
  unfold is_finite, is_nan, is_infinity. rewrite ltb_spec, leb_spec, !eqb_spec, abs_spec.
  change (Prim2SF 0) with (S754_zero false).
  change (Prim2SF 1) with (S754_finite false 4503599627370496 (-52)).
  change (Prim2SF infinity) with (S754_infinity false).
  destruct (Prim2SF o) as [[]|[]| |[] m e]; cbn; try discriminate.
  intros _ _. unfold SFeqb; cbn. now rewrite Z.compare_refl, Pos.compare_cont_refl.
Qed.

Section BacktestExits.

Variable math_exp : float -> float.
Variable float_pow : float -> Z -> float.

Lemma predict_fixture_raises (x : fixture) (e : exn) :
  predict_fixture math_exp float_pow x = Raise e -> e = ZeroDivisionError.
Proof.
  unfold predict_fixture.
  pose proof (fuzzy_outcomes (f_home_goals_avg x) (f_away_goals_avg x)
                (f_odds_home x) (f_odds_draw x) (f_odds_away x)) as F.
  destruct (fuzzy_divides_by_zero _ _ _).
  - rewrite F. cbn [bind]. now intros [= <-].
  - destruct F as (h & d & a & -> & _); cbn [bind].
    destruct (combine_default_total
                (stat_engine.calculate_probability math_exp float_pow
                   (f_home_goals_avg x) (f_away_goals_avg x)
                   (f_home_win_rate x) (f_away_win_rate x)) (h, d, a)) as [p ->].
    discriminate.
Qed.

Lemma edge_check_raises (st : state) (p : triple) (oh : float) (out : Z) (e : exn) :
  edge_check_and_bet st p oh out = Raise e -> e = ZeroDivisionError \/ e = TypeError.
Proof.
  unfold edge_check_and_bet, py_div. destruct (oh =? 0); cbn [bind].
  - intros [= <-]. now left.
  - destruct p as [[h0 h1] h2]. cbn. intros [= <-]. now right.
Qed.

Lemma process_row_raises (st : state) (r : row) (e : exn) :
  process_row math_exp float_pow st r = Raise e ->
  e = TypeError \/ e = ZeroDivisionError.
Proof.
  unfold process_row.
  destruct (row_body math_exp float_pow st r) as [s|e'] eqn:E; [discriminate|].
  assert (H : e' = TypeError \/ e' = ValueError \/ e' = ZeroDivisionError).
  { revert E. unfold row_body.
    destruct (parse_row r) as [x|e0] eqn:P; cbn [bind].
    - destruct (passes_gate x); cbn [negb]; [|discriminate].
      destruct (predict_fixture math_exp float_pow x) as [p|e1] eqn:Q; cbn [bind].
      + intros H. apply edge_check_raises in H as [->| ->]; auto.
      + intros [= <-]. apply predict_fixture_raises in Q. auto.
    - intros [= <-]. apply parse_row_raises in P as [->| ->]; auto. }
  destruct H as [->|[->| ->]]; try discriminate; intros [= <-]; auto.
Qed.

(** X10.  Of the exceptions raised while the rows the reader has yielded
    are processed, only [TypeError] and [ZeroDivisionError] end the loop:
    a [ValueError] or [KeyError] of a row is caught by the row's handler.
    (What the reader itself or [open] may raise is outside the loop body
    and outside this statement.) *)
Theorem process_rows_raises (st : state) (rows : list row) (e : exn) :
  process_rows math_exp float_pow st rows = Raise e ->
  e = TypeError \/ e = ZeroDivisionError.
Proof.
  revert st. induction rows as [|r rows IH]; intros st; [discriminate|].
  change (process_rows math_exp float_pow st (r :: rows))
    with (bind (process_row math_exp float_pow st r)
               (fun s => process_rows math_exp float_pow s rows)).
  destruct (process_row math_exp float_pow st r) as [s|e1] eqn:R; cbn [bind].
  - apply IH.
  - intros [= <-]. now apply process_row_raises in R.
Qed.

(** X11.  A row with a missing value (a short line, or a column the header
    does not name) whose other fields are numbers is not skipped as
    malformed: [float(None)] raises [TypeError], which the row's handler
    does not catch, and the run ends there. *)
Theorem absent_field_aborts_run
  (r : row) (rows : list row) (st : state) (initial_bankroll : float) :
  row_has_malformed r = false -> row_has_absent r = true ->
  process_row math_exp float_pow st r = Raise TypeError
  /\ run_backtest math_exp float_pow (Some (r :: rows)) initial_bankroll
     = Raise TypeError.
Proof.
  intros M A.
  assert (R : forall s, process_row math_exp float_pow s r = Raise TypeError).
  { intros s. unfold process_row, row_body. now rewrite (parse_row_absent r M A). }
  split; [apply R|]. unfold run_backtest.
  change (process_rows math_exp float_pow (initial_state initial_bankroll) (r :: rows))
    with (bind (process_row math_exp float_pow (initial_state initial_bankroll) r)
               (fun s => process_rows math_exp float_pow s rows)).
  now rewrite R.
Qed.

Lemma process_row_parsed (st : state) (hg ag hw aw oh od oa : float) (out : Z) :
  process_row math_exp float_pow st (parsed_row hg ag hw aw oh od oa out)
  = if negb (validate oh od oa hw aw) then Ok st
    else if fuzzy_divides_by_zero oh od oa then Raise ZeroDivisionError
    else Raise TypeError.
Proof.
  unfold process_row. rewrite row_body_parsed.
  destruct (validate oh od oa hw aw); cbn [negb]; [|reflexivity].
  pose proof (fuzzy_outcomes hg ag oh od oa) as F.
  destruct (fuzzy_divides_by_zero oh od oa) eqn:Z; [now rewrite F|].
  destruct F as (h & d & a & F & _). rewrite F. unfold bind at 1.
  destruct (combine_default_total
              (stat_engine.calculate_probability math_exp float_pow hg ag hw aw)
              (h, d, a)) as [p ->].
  unfold bind.
  now rewrite (edge_check_type_error st p oh out (fuzzy_ok_home_odds _ _ _ _ _ _ F)).
Qed.

(** X12.  What the loop does with a row whose eight fields convert, in
    every case: outside the gate the row is skipped, and the run is the
    run on the rows that follow; inside the gate the row ends the run,
    with [ZeroDivisionError] when one of the fuzzy engine's divisors is
    zero and with the [TypeError] of the edge check otherwise.  No such
    row is ever bet on. *)
Theorem process_row_parsed_cases
  (st : state) (hg ag hw aw oh od oa : float) (out : Z) :
  process_row math_exp float_pow st (parsed_row hg ag hw aw oh od oa out)
  = (if negb (validate oh od oa hw aw) then Ok st
     else if fuzzy_divides_by_zero oh od oa then Raise ZeroDivisionError
     else Raise TypeError)
  /\ forall (rows : list row) (initial_bankroll : float),
      run_backtest math_exp float_pow
        (Some (parsed_row hg ag hw aw oh od oa out :: rows)) initial_bankroll
      = if negb (validate oh od oa hw aw)
        then run_backtest math_exp float_pow (Some rows) initial_bankroll
        else if fuzzy_divides_by_zero oh od oa then Raise ZeroDivisionError
        else Raise TypeError.
Proof.
  split; [apply process_row_parsed|].
  intros rows initial_bankroll. unfold run_backtest.
  change (process_rows math_exp float_pow (initial_state initial_bankroll)
            (parsed_row hg ag hw aw oh od oa out :: rows))
    with (bind (process_row math_exp float_pow (initial_state initial_bankroll)
                  (parsed_row hg ag hw aw oh od oa out))
               (fun s => process_rows math_exp float_pow s rows)).
  rewrite process_row_parsed.
  destruct (validate oh od oa hw aw); cbn [negb bind]; [|reflexivity].
  now destruct (fuzzy_divides_by_zero oh od oa).
Qed.

(** X13.  Every row that converts with its three odds strictly between 0
    and 1 and its win rates in [[0, 1]] ends the run with [TypeError]: the
    fuzzy engine cannot raise on such odds, so the row reaches the edge
    check. *)
Theorem row_in_gate_aborts_run
  (st : state) (hg ag hw aw oh od oa : float) (out : Z)
  (rows : list row) (initial_bankroll : float) :
  (0 <? oh) = true -> (0 <? od) = true -> (0 <? oa) = true ->
  validate oh od oa hw aw = true ->
  process_row math_exp float_pow st (parsed_row hg ag hw aw oh od oa out)
    = Raise TypeError
  /\ run_backtest math_exp float_pow
       (Some (parsed_row hg ag hw aw oh od oa out :: rows)) initial_bankroll
     = Raise TypeError.
Proof.
  intros Ph Pd Pa V.
  assert (G : (1 <=? oh) = false /\ (1 <=? od) = false /\ (1 <=? oa) = false).
  { revert V. unfold validate.
    destruct (1 <=? oh), (1 <=? od), (1 <=? oa); cbn; try discriminate. auto. }
  destruct G as (Gh & Gd & Ga).
  assert (R : forall s, process_row math_exp float_pow s
                          (parsed_row hg ag hw aw oh od oa out) = Raise TypeError).
  { intros s. rewrite process_row_parsed, V. cbn [negb].
    now rewrite (positive_odds_divide oh od oa Ph Pd Pa
                   (finite_below_one _ Ph Gh) (finite_below_one _ Pd Gd)
                   (finite_below_one _ Pa Ga)). }
  split; [apply R|]. unfold run_backtest.
  change (process_rows math_exp float_pow (initial_state initial_bankroll)
            (parsed_row hg ag hw aw oh od oa out :: rows))
    with (bind (process_row math_exp float_pow (initial_state initial_bankroll)
                  (parsed_row hg ag hw aw oh od oa out))
               (fun s => process_rows math_exp float_pow s rows)).
  now rewrite R.
Qed.

End BacktestExits.

Lemma process_rows_raises_witness :
  TypeError = TypeError \/ TypeError = ZeroDivisionError.
Proof.
  apply (process_rows_raises ref_exp ref_pow (initial_state 1000)
           [scenario_row; gate_row]).
  vm_compute. reflexivity.
Defined.

Lemma absent_field_aborts_run_witness :
  process_row ref_exp ref_pow (initial_state 1000) headerless_row = Raise TypeError
  /\ run_backtest ref_exp ref_pow (Some [headerless_row; scenario_row]) 1000
     = Raise TypeError.
Proof.
  apply (absent_field_aborts_run ref_exp ref_pow headerless_row [scenario_row]
           (initial_state 1000) 1000); reflexivity.
Defined.

Lemma row_in_gate_aborts_run_witness :
  process_row ref_exp ref_pow (initial_state 1000) gate_row = Raise TypeError
  /\ run_backtest ref_exp ref_pow (Some [gate_row; scenario_row]) 1000 = Raise TypeError.
Proof.
  apply (row_in_gate_aborts_run ref_exp ref_pow (initial_state 1000)
           1.5 1.2 0.55 0.45 0.5 0.4 0.3 1 [scenario_row] 1000); reflexivity.
Defined.

(** * The [/backtest] handler *)

(** X14.  The [/backtest] handler answers 400 while no upload has stored a
    path; after that it answers 500 when the file is gone, the report of
    an idle run (no bet, bankroll 7000, ROI 0) on a file without rows, and
    on every file one of these two: it never reports a bet. *)
Theorem backtest_endpoint_answers
  (math_exp : float -> float) (float_pow : float -> Z -> float)
  (uploaded_data : option endpoints.pystr)
  (files : endpoints.pystr -> option (list row)) :
  match uploaded_data with
  | None | Some [] =>
      endpoints.run_backtest math_exp float_pow uploaded_data files
      = endpoints.HTTPException 400
  | Some path =>
      (files path = None ->
       endpoints.run_backtest math_exp float_pow uploaded_data files
       = endpoints.HTTPException 500)
      /\ (files path = Some [] ->
          endpoints.run_backtest math_exp float_pow uploaded_data files
          = endpoints.Response idle_report)
      /\ (endpoints.run_backtest math_exp float_pow uploaded_data files
          = endpoints.HTTPException 500
          \/ endpoints.run_backtest math_exp float_pow uploaded_data files
             = endpoints.Response idle_report)
  end.
Proof.
  destruct uploaded_data as [[|c path]|]; try reflexivity.
  unfold endpoints.run_backtest.
  split; [now intros ->|]. split; [now intros ->|].
  destruct (run_backtest math_exp float_pow (files (c :: path)) 7000)
    as [[rep|]|e] eqn:E; auto.
  right. apply run_backtest_ok in E. subst rep. reflexivity.
Qed.

(** * The path of an upload *)

Lemma startswith_app (p s : endpoints.pystr) :
  endpoints.startswith s p = true <-> exists t, s = p ++ t.
Proof.
  revert s. induction p as [|c p IH]; intros s; cbn.
  - split; [now exists s|now destruct s].
  - destruct s as [|d s]; cbn; [split; [discriminate|now intros [t H]]|].
    rewrite andb_true_iff, N.eqb_eq, IH. split.
    + intros [-> [t ->]]. now exists t.
    + intros [t [= -> ->]]. split; [reflexivity|now exists t].
Qed.

Lemma endswith_app (s suffix : endpoints.pystr) :
  endpoints.endswith s suffix = true <-> exists pre, s = pre ++ suffix.
Proof.
  unfold endpoints.endswith. rewrite startswith_app. split.
  - intros [t H]. exists (rev t).
    rewrite <- (rev_involutive s), H, rev_app_distr. now rewrite rev_involutive.
  - intros [pre ->]. exists (rev pre). apply rev_app_distr.
Qed.

(** X15.  An upload the file type check lets through is written directly
    inside [data/]: the path is ["data/"] followed by the sanitised name,
    which still ends in [.csv], contains no separator, and consists of
    alphanumeric characters, [-], [_] and [.] only. *)
Theorem upload_path_inside_data
  (unicode_isalnum : N -> bool) (filename path : endpoints.pystr) :
  endpoints.upload_file_path unicode_isalnum filename = Some path ->
  exists name,
    path = endpoints.upload_dir ++ [endpoints.slash] ++ name
    /\ name = endpoints.safe_filename unicode_isalnum filename
    /\ endpoints.endswith name endpoints.dot_csv = true
    /\ ~ In endpoints.slash name
    /\ forall c, In c name ->
         endpoints.isalnum unicode_isalnum c = true
         \/ c = endpoints.hyphen \/ c = endpoints.underscore \/ c = endpoints.dot.
Proof.
  unfold endpoints.upload_file_path.
  destruct (endpoints.endswith filename endpoints.dot_csv) eqn:E; cbn [negb];
    [|discriminate].
  intros [= <-]. exists (endpoints.safe_filename unicode_isalnum filename).
  assert (A : forall c, In c (endpoints.safe_filename unicode_isalnum filename) ->
              endpoints.isalnum unicode_isalnum c = true
              \/ c = endpoints.hyphen \/ c = endpoints.underscore
              \/ c = endpoints.dot).
  { intros c H. apply filter_In in H as [_ H].
    apply orb_prop in H as [H|H]; [|apply N.eqb_eq in H; auto].
    apply orb_prop in H as [H|H]; [|apply N.eqb_eq in H; auto].
    apply orb_prop in H as [H|H]; [|apply N.eqb_eq in H; auto].
    auto. }
  assert (S : ~ In endpoints.slash (endpoints.safe_filename unicode_isalnum filename)).
  { intros H. apply A in H as [H|[H|[H|H]]]; discriminate. }
  repeat split; try assumption.
  - unfold endpoints.os_path_join.
    destruct (endpoints.safe_filename unicode_isalnum filename) as [|c s] eqn:F;
      [reflexivity|].
    cbn [endpoints.startswith]. destruct (c =? endpoints.slash)%N eqn:C; [|reflexivity].
    apply N.eqb_eq in C. subst c. exfalso. apply S. now left.
  - apply endswith_app in E as [pre ->]. apply endswith_app.
    exists (endpoints.safe_filename unicode_isalnum pre).
    unfold endpoints.safe_filename. rewrite filter_app. f_equal.
Qed.

Lemma upload_path_inside_data_witness :
  exists name,
    [100; 97; 116; 97; 47; 46; 46; 97; 98; 46; 99; 115; 118]%N
    = endpoints.upload_dir ++ [endpoints.slash] ++ name
    /\ name = endpoints.safe_filename (fun _ => false)
                [46; 46; 47; 97; 32; 98; 46; 99; 115; 118]%N
    /\ endpoints.endswith name endpoints.dot_csv = true
    /\ ~ In endpoints.slash name
    /\ forall c, In c name ->
         endpoints.isalnum (fun _ => false) c = true
         \/ c = endpoints.hyphen \/ c = endpoints.underscore \/ c = endpoints.dot.
Proof.
  apply (upload_path_inside_data (fun _ => false)
           [46; 46; 47; 97; 32; 98; 46; 99; 115; 118]%N).
  reflexivity.
Defined.

(** * The [/predict] handler on every request *)

(** ** [round(p, 4)] of a probability is a probability

    The decimal [round] works on is [n / 10^4] for an integer [n] between
    0 and 10000.  The division of the two integers yields a quotient of 53
    or 54 binary digits at an exponent of at most -53, which rounds to a
    normal double that does not exceed 1. *)

Section RoundingQuotients.
Local Open Scope Z_scope.

Lemma digits2_pos_eq (p : positive) (d : Z) :
  0 < d -> 2 ^ (d - 1) <= Zpos p < 2 ^ d -> Zpos (digits2_pos p) = d.
Proof.
  intros Hd [L U]. pose proof (digits2_pos_bounds p) as [D1 D2].
  set (D := Z.pos (digits2_pos p)) in *.
  destruct (Z.lt_trichotomy D d) as [C|[C|C]]; [exfalso|assumption|exfalso].
  - assert (2 ^ D <= 2 ^ (d - 1)) by (apply Z.pow_le_mono_r; lia). lia.
  - assert (2 ^ d <= 2 ^ (D - 1)) by (apply Z.pow_le_mono_r; lia). lia.
Qed.

Lemma shr_m_of_loc (m : Z) (l : location) : shr_m (shr_record_of_loc m l) = m.
Proof. destruct l as [|[]]; reflexivity. Qed.

(** A mantissa of 53 digits is kept, one of 54 digits is shifted once. *)
Lemma shr_fexp_53 (m e : Z) (l : location) :
  4503599627370496 <= m < 9007199254740992 -> emin <= e ->
  shr_fexp prec emax m e l = (shr_record_of_loc m l, e).
Proof.
  intros H He. destruct m as [|p|p]; try lia.
  unfold shr_fexp. cbn [Zdigits2].
  rewrite (digits2_pos_eq p 53) by (try exact H; lia).
  replace (fexp prec emax (53 + e) - e) with 0
    by (unfold fexp, SpecFloat.emin, prec, emax in *; lia).
  reflexivity.
Qed.

Lemma shr_fexp_54 (m e : Z) (l : location) :
  9007199254740992 <= m < 18014398509481984 -> emin <= e ->
  shr_fexp prec emax m e l = (shr_1 (shr_record_of_loc m l), e + 1).
Proof.
  intros H He. destruct m as [|p|p]; try lia.
  unfold shr_fexp. cbn [Zdigits2].
  rewrite (digits2_pos_eq p 54) by (try exact H; lia).
  replace (fexp prec emax (54 + e) - e) with 1
    by (unfold fexp, SpecFloat.emin, prec, emax in *; lia).
  reflexivity.
Qed.

Lemma round_nearest_even_cases (m : Z) (l : location) :
  round_nearest_even m l = m \/ round_nearest_even m l = m + 1.
Proof.
  unfold round_nearest_even. destruct l as [|[]]; auto. destruct (Z.even m); auto.
Qed.

(** The rounding of a mantissa of 53 digits at exponent [e]. *)
Lemma round_53 (m e : Z) (l : location) :
  4503599627370496 <= m < 9007199254740992 -> emin <= e <= -52 ->
  exists m' e',
    (let '(mrs, e1) := shr_fexp prec emax (round_nearest_even m l) e loc_Exact in
     match shr_m mrs with
     | Z0 => S754_zero false
     | Zpos m0 => if e1 <=? emax - prec then S754_finite false m0 e1
                  else S754_infinity false
     | Zneg _ => S754_nan
     end) = S754_finite false m' e'
    /\ 4503599627370496 <= Zpos m' < 9007199254740992
    /\ ((e' = e) \/ (e' = e + 1 /\ Zpos m' = 4503599627370496)).
Proof.
  intros H He.
  destruct (round_nearest_even_cases m l) as [-> | ->];
    [|destruct (Z.eq_dec (m + 1) 9007199254740992) as [E|E]].
  - rewrite shr_fexp_53, shr_m_of_loc by lia.
    destruct m as [|p|p]; try lia.
    replace (e <=? emax - prec) with true
      by (symmetry; apply Z.leb_le; unfold emax, prec; lia).
    exists p, e. auto.
  - rewrite E, shr_fexp_54 by lia. cbn [shr_1 shr_record_of_loc shr_m].
    replace (e + 1 <=? emax - prec) with true
      by (symmetry; apply Z.leb_le; unfold emax, prec; lia).
    exists 4503599627370496%positive, (e + 1). split; [reflexivity|]. split; [lia|auto].
  - rewrite shr_fexp_53, shr_m_of_loc by lia.
    destruct (m + 1) as [|p|p] eqn:M; try lia.
    replace (e <=? emax - prec) with true
      by (symmetry; apply Z.leb_le; unfold emax, prec; lia).
    exists p, e. split; [reflexivity|]. split; [lia|auto].
Qed.

(** A quotient of 53 or 54 digits at an exponent that keeps it below 1
    rounds to a normal double that is at most 1. *)
Lemma binary_round_aux_at_most_one (q e : Z) (l : location) :
  4503599627370496 <= q < 18014398509481984 -> emin <= e ->
  e <= -54 \/ (e = -53 /\ q < 9007199254740992) ->
  exists m' e',
    binary_round_aux prec emax false q e l = S754_finite false m' e'
    /\ 4503599627370496 <= Zpos m' < 9007199254740992
    /\ emin <= e'
    /\ (e' < -52 \/ (e' = -52 /\ Zpos m' = 4503599627370496)).
Proof.
  intros Hq He Hb. unfold binary_round_aux.
  destruct (Z.lt_ge_cases q 9007199254740992) as [C|C].
  - rewrite shr_fexp_53 by lia. rewrite shr_m_of_loc.
    destruct (round_53 q e (loc_of_shr_record (shr_record_of_loc q l)) ltac:(lia) ltac:(lia))
      as (m' & e' & R & B & K).
    exists m', e'. split; [exact R|]. split; [exact B|]. lia.
  - rewrite shr_fexp_54 by lia.
    assert (M : shr_m (shr_1 (shr_record_of_loc q l)) = q / 2)
      by (rewrite shr_1_m, shr_m_of_loc; [reflexivity | rewrite shr_m_of_loc; lia]).
    rewrite M.
    assert (Q : 4503599627370496 <= q / 2 < 9007199254740992).
    { split; [apply Z.div_le_lower_bound; lia | apply Z.div_lt_upper_bound; lia]. }
    destruct (round_53 (q / 2) (e + 1) (loc_of_shr_record (shr_1 (shr_record_of_loc q l)))
                Q ltac:(lia)) as (m' & e' & R & B & K).
    exists m', e'. split; [exact R|]. split; [exact B|]. lia.
Qed.

End RoundingQuotients.

Lemma round4_unit (n : Z) : (0 <= n <= 10000)%Z -> in_unit (round4_of n) = true.
Proof.
  intros H.
  destruct (Z.eq_dec n 0) as [->|N0]; [reflexivity|].
  destruct (Z.eq_dec n 10000) as [->|N1]; [vm_compute; reflexivity|].
  destruct n as [|p|p]; try lia.
  unfold round4_of, SF_of_Z, SFdiv, SFdiv_core_binary. cbn [xorb].
  change (Zdigits2 10000) with 14%Z. cbn [Zdigits2].
  pose proof (digits2_pos_bounds p) as [D1 D2].
  set (d := Z.pos (digits2_pos p)) in *.
  assert (Dd : (1 <= d <= 14)%Z).
  { split; [subst d; lia|].
    destruct (Z.le_gt_cases d 14) as [L|G]; [assumption|].
    assert (2 ^ 14 <= 2 ^ (d - 1))%Z by (apply Z.pow_le_mono_r; lia).
    change (2 ^ 14)%Z with 16384%Z in *. lia. }
  replace (Z.min (fexp prec emax (d + 0 - (14 + 0))) (0 - 0))%Z with (d - 67)%Z
    by (unfold fexp, SpecFloat.emin, prec, emax; lia).
  destruct (0 - 0 - (d - 67))%Z as [|s|s] eqn:S; try lia.
  rewrite Z.shiftl_mul_pow2 by lia.
  assert (B : (73786976294838206464 <= Z.pos p * 2 ^ Z.pos s < 147573952589676412928)%Z).
  { assert (P : (2 ^ (d - 1) * 2 ^ Z.pos s = 73786976294838206464)%Z).
    { rewrite <- Z.pow_add_r by lia. replace (d - 1 + Z.pos s)%Z with 66%Z by lia.
      reflexivity. }
    assert (P2 : (2 ^ d = 2 * 2 ^ (d - 1))%Z).
    { rewrite <- Z.pow_succ_r by lia. f_equal. lia. }
    assert (P3 : (0 < 2 ^ Z.pos s)%Z) by (apply Z.pow_pos_nonneg; lia).
    nia. }
  assert (B14 : (d = 14 -> Z.pos p * 2 ^ Z.pos s < 10000 * 9007199254740992)%Z).
  { intros E. replace (Z.pos s) with 53%Z by lia.
    change (2 ^ 53)%Z with 9007199254740992%Z. lia. }
  pose proof (Z.div_le_lower_bound (Z.pos p * 2 ^ Z.pos s) 10000 4503599627370496
                ltac:(lia) ltac:(lia)) as Q1.
  pose proof (Z.div_lt_upper_bound (Z.pos p * 2 ^ Z.pos s) 10000 18014398509481984
                ltac:(lia) ltac:(lia)) as Q2.
  assert (Q3 : (d = 14 -> Z.pos p * 2 ^ Z.pos s / 10000 < 9007199254740992)%Z).
  { intros E. apply Z.div_lt_upper_bound; [lia|]. now apply B14. }
  unfold Z.div in Q1, Q2, Q3.
  destruct (Z.div_eucl (Z.pos p * 2 ^ Z.pos s) 10000) as [q r].
  cbn [fst] in Q1, Q2, Q3.
  destruct (binary_round_aux_at_most_one q (d - 67) (new_location 10000 r)
              ltac:(lia) ltac:(unfold SpecFloat.emin, emax, prec; lia) ltac:(lia))
    as (m' & e' & -> & Bm & Be & K).
  assert (V : valid_binary (S754_finite false m' e') = true).
  { cbn [valid_binary]. unfold bounded, canonical_mantissa.
    rewrite (digits2_pos_eq m' 53) by (try exact Bm; lia).
    apply andb_true_intro. split.
    - apply Z.eqb_eq. unfold fexp, SpecFloat.emin, prec, emax in *. lia.
    - apply Z.leb_le. unfold emax, prec. lia. }
  unfold in_unit. rewrite !leb_spec, (Prim2SF_SF2Prim _ V).
  change (Prim2SF 0) with (S754_zero false).
  change (Prim2SF 1) with (S754_finite false 4503599627370496 (-52)).
  cbn [SFleb SFcompare andb]. unfold SFleb, SFcompare.
  destruct K as [K|[K1 K2]].
  - now rewrite (proj2 (Z.compare_lt_iff e' (-52)) K).
  - subst e'. injection K2 as ->. reflexivity.
Qed.

Lemma py_round4_unit (f : float) : in_unit f = true -> in_unit (py_round f 4) = true.
Proof.
  intros H. pose proof H as H'. unfold in_unit in H'. apply andb_prop in H' as [H0 H1].
  unfold py_round.
  pose proof (Prim2SF_valid f) as V.
  rewrite leb_spec in H0, H1.
  change (Prim2SF 0) with (S754_zero false) in H0.
  change (Prim2SF 1) with (S754_finite false 4503599627370496 (-52)) in H1.
  destruct (Prim2SF f) as [s|s| |s m e]; try assumption.
  destruct (0 <=? e)%Z eqn:E; [assumption|].
  apply Z.leb_gt in E.
  destruct s; [discriminate|].
  apply valid_finite in V as (V1 & V2 & V3).
  change (10 ^ Z.of_nat 4)%Z with 10000%Z.
  apply round4_unit.
  assert (D : (0 < 2 ^ (- e))%Z) by (apply Z.pow_pos_nonneg; lia).
  pose proof (round_half_even_div_bounds (Z.pos m * 10000) (2 ^ (- e)) ltac:(lia) D)
    as [[B1 B2] B3].
  assert (Q : (0 <= Z.pos m * 10000 / 2 ^ (- e))%Z) by (apply Z.div_pos; lia).
  split; [lia|].
  unfold SFleb, SFcompare in H1.
  destruct (e ?= -52)%Z eqn:C.
  - apply Z.compare_eq in C. subst e.
    change (2 ^ (- -52))%Z with 4503599627370496%Z in *.
    assert (M : (Z.pos m <= 4503599627370496)%Z).
    { destruct (Pos.compare_cont Eq m 4503599627370496%positive) eqn:C2.
      - apply (Pos.compare_eq m) in C2. subst m. apply Z.le_refl.
      - apply Z.lt_le_incl. exact C2.
      - discriminate H1. }
    pose proof (Z.div_mod (Z.pos m * 10000) 4503599627370496 ltac:(lia)).
    pose proof (Z.mod_pos_bound (Z.pos m * 10000) 4503599627370496 ltac:(lia)).
    lia.
  - change (e < -52)%Z in C.
    assert (P : (9007199254740992 <= 2 ^ (- e))%Z).
    { change 9007199254740992%Z with (2 ^ 53)%Z. apply Z.pow_le_mono_r; lia. }
    assert (L : (Z.pos m * 10000 / 2 ^ (- e) <= Z.pos m * 10000 / 9007199254740992)%Z).
    { apply Z.div_le_compat_l; lia. }
    assert (L2 : (Z.pos m * 10000 / 9007199254740992 < 10000)%Z).
    { change (2 ^ 53)%Z with 9007199254740992%Z in V2.
      apply Z.div_lt_upper_bound; lia. }
    lia.
  - discriminate.
Qed.

Lemma combine_default_in_unit (p_stat p_fuzzy : triple) :
  exists h d a, hybrid_engine.combine_probabilities_default p_stat p_fuzzy = Ok (h, d, a)
    /\ in_unit h = true /\ in_unit d = true /\ in_unit a = true.
Proof.
  destruct p_stat as [[s0 s1] s2], p_fuzzy as [[f0 f1] f2].
  unfold hybrid_engine.combine_probabilities_default,
    hybrid_engine.combine_probabilities.
  cbn. destruct (0 <? _); do 3 eexists; (split; [reflexivity|]);
    repeat split; apply clamp01_in_unit.
Qed.

Section Predict.

Variable math_exp : float -> float.
Variable float_pow : float -> Z -> float.

Lemma predictions_cases (r : main.PredictionRequest) :
  if fuzzy_divides_by_zero (main.odds_home r) (main.odds_draw r) (main.odds_away r)
  then main.predictions math_exp float_pow r = Raise ZeroDivisionError
  else exists s0 s1 s2 f0 f1 f2 h0 h1 h2,
      main.predictions math_exp float_pow r
      = Ok ((s0, s1, s2), (f0, f1, f2), (h0, h1, h2))
      /\ in_unit s0 = true /\ in_unit s1 = true /\ in_unit s2 = true
      /\ in_unit f0 = true /\ in_unit f1 = true /\ in_unit f2 = true
      /\ in_unit h0 = true /\ in_unit h1 = true /\ in_unit h2 = true.
Proof.
  unfold main.predictions.
  pose proof (fuzzy_outcomes (main.home_goals_avg r)
                (main.away_goals_avg r) (main.odds_home r) (main.odds_draw r)
                (main.odds_away r)) as F.
  destruct (fuzzy_divides_by_zero _ _ _); [now rewrite F|].
  destruct F as (f0 & f1 & f2 & -> & F0 & F1 & F2); cbn [bind].
  pose proof (stat_in_unit math_exp float_pow (main.home_goals_avg r)
                (main.away_goals_avg r) (main.home_win_rate r)
                (main.away_win_rate r)) as S.
  destruct (stat_engine.calculate_probability _ _ _ _ _ _) as [[s0 s1] s2].
  destruct S as (S0 & S1 & S2).
  destruct (combine_default_in_unit (s0, s1, s2) (f0, f1, f2))
    as (h0 & h1 & h2 & -> & H0 & H1 & H2); cbn [bind].
  exists s0, s1, s2, f0, f1, f2, h0, h1, h2. now repeat split.
Qed.

(** The handler's own implied probabilities divide by what the fuzzy
    engine has divided by already. *)
Lemma best_bet_total (r : main.PredictionRequest) (p_hybrid : triple) :
  fuzzy_divides_by_zero (main.odds_home r) (main.odds_draw r) (main.odds_away r) = false ->
  exists out p o, main.best_bet r p_hybrid = Ok (out, p, o).
Proof.
  unfold fuzzy_divides_by_zero. intros Z.
  apply orb_false_elim in Z as [Z Z4]. apply orb_false_elim in Z as [Z Z3].
  apply orb_false_elim in Z as [Z1 Z2].
  destruct p_hybrid as [[h0 h1] h2]. unfold main.best_bet, py_div.
  rewrite Z1, Z2, Z3; cbn [bind]. rewrite Z4; cbn [bind].
  destruct (_ <? _); destruct (_ <? _); do 3 eexists; reflexivity.
Qed.

Lemma predict_outcomes (r : main.PredictionRequest) :
  if negb (handler_accepts r) then main.predict math_exp float_pow r = Raise ValueError
  else if fuzzy_divides_by_zero (main.odds_home r) (main.odds_draw r) (main.odds_away r)
  then main.predict math_exp float_pow r = Raise ZeroDivisionError
  else exists response,
      main.predict math_exp float_pow r = Ok response
      /\ schemas.response_valid response = true
      /\ (0 <=? main.r_kelly_fraction response) = true
      /\ (main.r_kelly_fraction response <=? 0.05) = true.
Proof.
  unfold handler_accepts, main.predict.
  destruct ((main.home_goals_avg r <? 0) || (main.away_goals_avg r <? 0));
    cbn [negb andb]; [reflexivity|].
  destruct ((0 <? main.home_win_rate r) && (main.home_win_rate r <? 1));
    cbn [negb andb]; [|reflexivity].
  destruct ((0 <? main.away_win_rate r) && (main.away_win_rate r <? 1));
    cbn [negb andb]; [|reflexivity].
  pose proof (predictions_cases r) as P. pose proof (best_bet_total r) as B.
  destruct (fuzzy_divides_by_zero _ _ _); [now rewrite P|].
  destruct P as (s0 & s1 & s2 & f0 & f1 & f2 & h0 & h1 & h2 & -> & U); cbn [bind].
  destruct (B (h0, h1, h2) eq_refl) as (out & p & o & ->); cbn [bind].
  pose proof (calculate_stake_fraction p o (main.bankroll r) (main.kelly_fraction r)) as K.
  rewrite calculate_stake_eq in *.
  destruct (no_bet p o).
  all: cbn [bind]; eexists; split; [reflexivity|].
  all: destruct (K _ _ eq_refl) as [K0 K1]; split; [|now split].
  all: unfold schemas.response_valid; cbn.
  all: destruct U as (U1 & U2 & U3 & U4 & U5 & U6 & U7 & U8 & U9).
  all: now rewrite !py_round4_unit.
Qed.

(** X16.  What the body of the [/predict] handler does, on every request
    and with every C library.  It raises [ValueError] exactly when one of
    its three opening checks fails (a negative goal average, a win rate
    not strictly between 0 and 1), [ZeroDivisionError] exactly when the
    checks pass and an odds value or the sum of the reciprocal odds is
    zero, and no other exception; every response it returns satisfies the
    response model's [ge=0, le=1] on its nine probabilities and has its
    Kelly fraction in [[0, 0.05]]. *)
Theorem predict_cases (r : main.PredictionRequest) :
  (main.predict math_exp float_pow r = Raise ValueError <-> handler_accepts r = false)
  /\ (main.predict math_exp float_pow r = Raise ZeroDivisionError
      <-> handler_accepts r = true
          /\ fuzzy_divides_by_zero (main.odds_home r) (main.odds_draw r)
               (main.odds_away r) = true)
  /\ (forall e : exn,
        main.predict math_exp float_pow r = Raise e ->
        e = ValueError \/ e = ZeroDivisionError)
  /\ (forall response : main.PredictionResponse,
        main.predict math_exp float_pow r = Ok response ->
        schemas.response_valid response = true
        /\ (0 <=? main.r_kelly_fraction response) = true
        /\ (main.r_kelly_fraction response <=? 0.05) = true).
Proof.
  pose proof (predict_outcomes r) as P.
  destruct (handler_accepts r); cbn [negb] in P.
  - destruct (fuzzy_divides_by_zero _ _ _).
    + rewrite P. repeat split; try discriminate; auto.
      intros e [= <-]. now right.
    + destruct P as (response & -> & V & K0 & K1).
      repeat split; try discriminate.
      * now intros [_ H].
      * now injection H as <-.
      * now injection H as <-.
      * now injection H as <-.
  - rewrite P. repeat split; try discriminate; auto.
    + now intros [H _].
    + intros e [= <-]. now left.
Qed.

(** X17.  A request that satisfies the request model (odds above 1 among
    its constraints), passes the handler's three checks and carries finite
    odds is always answered with a prediction: nothing in the engines, the
    edge computation or the stake sizer raises, and the response satisfies
    the response model. *)
Theorem predict_valid_request_answers (r : main.PredictionRequest) :
  main.request_valid r = true -> handler_accepts r = true -> finite_odds r = true ->
  exists response,
    main.predict math_exp float_pow r = Ok response
    /\ schemas.response_valid response = true
    /\ (0 <=? main.r_kelly_fraction response) = true
    /\ (main.r_kelly_fraction response <=? 0.05) = true.
Proof.
  intros V A F. pose proof (predict_outcomes r) as P.
  rewrite A in P. cbn [negb] in P.
  unfold main.request_valid in V. unfold finite_odds in F.
  repeat (apply andb_prop in V as [V ?]). repeat (apply andb_prop in F as [F ?]).
  rewrite positive_odds_divide in P; auto using gt_one_positive.
Qed.

End Predict.

Lemma predict_valid_request_answers_witness :
  exists response,
    main.predict ref_exp ref_pow cap_request = Ok response
    /\ schemas.response_valid response = true
    /\ (0 <=? main.r_kelly_fraction response) = true
    /\ (main.r_kelly_fraction response <=? 0.05) = true.
Proof.
  apply (predict_valid_request_answers ref_exp ref_pow cap_request); reflexivity.
Defined.

(** X18.  The outcome the handler recommends is one with the largest edge
    (hybrid probability minus normalised implied probability), and the
    probability and the odds it passes to the stake sizer are those of
    that outcome, provided no edge is NaN. *)
Theorem best_bet_max_edge (r : main.PredictionRequest) (p_hybrid : triple)
  (out : main.outcome_name) (p o : float) :
  main.best_bet r p_hybrid = Ok (out, p, o) ->
  (let '(eh, ed, ea) := edges r p_hybrid in (eh =? eh) && (ed =? ed) && (ea =? ea)) = true ->
  p = pick out p_hybrid /\ o = pick out (request_odds r)
  /\ forall other : main.outcome_name,
      (pick other (edges r p_hybrid) <=? pick out (edges r p_hybrid)) = true.
Proof.
  destruct p_hybrid as [[h0 h1] h2]. unfold main.best_bet, edges, request_odds, py_div.
  destruct (main.odds_home r =? 0); cbn [bind]; [discriminate|].
  destruct (main.odds_draw r =? 0); cbn [bind]; [discriminate|].
  destruct (main.odds_away r =? 0); cbn [bind]; [discriminate|].
  destruct (_ =? 0); cbn [bind]; [discriminate|].
  set (eh := h0 - _). set (ed := h1 - _). set (ea := h2 - _).
  intros H N. apply andb_prop in N as [N Na]. apply andb_prop in N as [Nh Nd].
  assert (Rh : (eh <=? eh) = true) by (apply nltb_leb; auto using ltb_irrefl).
  assert (Rd : (ed <=? ed) = true) by (apply nltb_leb; auto using ltb_irrefl).
  assert (Ra : (ea <=? ea) = true) by (apply nltb_leb; auto using ltb_irrefl).
  destruct (eh <? ed) eqn:E1.
  - destruct (ed <? ea) eqn:E2; injection H as <- <- <-; repeat split; cbn [pick fst snd];
      intros []; cbn [pick fst snd]; auto using ltb_leb, nltb_leb.
    apply ltb_leb. now apply ltb_trans with ed.
  - destruct (eh <? ea) eqn:E2; injection H as <- <- <-; repeat split; cbn [pick fst snd];
      intros []; cbn [pick fst snd]; auto using ltb_leb, nltb_leb.
    apply ltb_leb. apply leb_ltb_trans with eh; [|assumption]. now apply nltb_leb.
Qed.

Lemma best_bet_max_edge_witness :
  0.5 = pick main.home (0.5, 0.3, 0.2)
  /\ 3.0 = pick main.home (request_odds cap_request)
  /\ forall other : main.outcome_name,
      (pick other (edges cap_request (0.5, 0.3, 0.2))
       <=? pick main.home (edges cap_request (0.5, 0.3, 0.2))) = true.
Proof.
  apply (best_bet_max_edge cap_request (0.5, 0.3, 0.2) main.home 0.5 3.0);
    vm_compute; reflexivity.
Defined.
